(** * birdclef.workflows.motif: a shallow embedding

    The module finds the motif pair of every training clip ([write],
    driven by the [extract] command) and merges the per-recording
    metadata into one table ([consolidate]).

    Conventions of the embedding.
    - A [pathlib.Path] is the list of its [parts].
    - A Python float is the rational it denotes.
    - The file system is a finite map from paths to nodes; the outputs
      of [json.dumps], [np.save] and [to_parquet] are kept as the values
      they serialise.
    - Functions with effects run in a state-and-exception monad; the
      state carries the file system and a trace of the calls made to
      the numeric collaborators and of the files written.
    - librosa, simple_fast and birdclef.utils.cens_per_sec are not part
      of this module: they are fields of a record of collaborators.
    - The functions are taken as they are written. Line 133, in the
      decorators of [generate_triplets], has an unbalanced quote, and
      the body of that command reads an unbound [data]; the command is
      left out. *)

From Stdlib Require Import ZArith QArith Qround Qabs Lqa String Ascii List Lia.
From stdpp Require Import gmap strings list fin_maps.

#[local] Set Warnings "-register-all".

Local Open Scope string_scope.
Local Open Scope Z_scope.

(** ** Strings and paths *)

Module Str.

(** [s.split(sep)[0]] for a non-empty separator: the text before the
    first occurrence of [sep], or all of [s] when [sep] does not occur. *)
Fixpoint split_head (sep s : string) : string :=
  if String.prefix sep s then EmptyString
  else match s with
       | EmptyString => EmptyString
       | String c s' => String c (split_head sep s')
       end.

(** [sep in s]. *)
Fixpoint occurs (sep s : string) : bool :=
  String.prefix sep s ||
  match s with
  | EmptyString => false
  | String _ s' => occurs sep s'
  end.

(** [sep.join(l)]. *)
Fixpoint join (sep : string) (l : list string) : string :=
  match l with
  | [] => EmptyString
  | [x] => x
  | x :: l' => x ++ sep ++ join sep l'
  end.

(** Index of the last occurrence of the character [c] in [s]. *)
Fixpoint rindex (c : ascii) (s : string) : option nat :=
  match s with
  | EmptyString => None
  | String d s' =>
      match rindex c s' with
      | Some i => Some (S i)
      | None => if Ascii.eqb c d then Some O else None
      end
  end.

(** The filename with its extension stripped, as [PurePath.stem] does it:
    the text before the last dot, unless that dot leads or ends the
    name. *)
Definition stem (s : string) : string :=
  match rindex "." s with
  | Some (S i) =>
      if (S (S i) <? String.length s)%nat then String.substring 0 (S i) s else s
  | _ => s
  end.

End Str.

Module Path.

(** [p.name]: the final component, empty for the root and for [Path()]. *)
Definition name (p : list string) : string :=
  match last p with
  | Some c => if String.eqb c "/" then EmptyString else c
  | None => EmptyString
  end.

(** [s.split(c)] for a character [c]. *)
Fixpoint split_on (c : ascii) (s : string) : list string :=
  match s with
  | EmptyString => [EmptyString]
  | String d s' =>
      if Ascii.eqb d c then EmptyString :: split_on c s'
      else match split_on c s' with
           | [] => [String d EmptyString]
           | x :: xs => String d x :: xs
           end
  end.

(** The components of a path given as text: empty and [.] ones vanish. *)
Definition components (s : string) : list string :=
  filter (fun x => negb (String.eqb x EmptyString) && negb (String.eqb x ".") = true)
         (split_on "/" s).

(** [p / s]: an absolute [s] replaces [p]. *)
Definition div (p : list string) (s : string) : list string :=
  if String.prefix "/" s then "/" :: components s else p ++ components s.

(** [p.parts[-n:]]. *)
Definition last_parts (n : nat) (p : list string) : list string :=
  drop (length p - n)%nat p.

(** The paths from the first component down to [p] itself, as
    [mkdir(parents=True)] visits them. *)
Definition ancestors_and_self (p : list string) : list (list string) :=
  map (fun n => take n p) (seq 1 (length p)).

End Path.

Notation "p // c" := (Path.div p c) (at level 40, left associativity).

(** [name = input_path.name.split(".ogg")[0]] *)
Definition recording_name (input_path : list string) : string :=
  Str.split_head ".ogg" (Path.name input_path).

(** [path = Path(output_path) / name] *)
Definition recording_dir (input_path output_path : list string) : list string :=
  output_path // recording_name input_path.

(** ** Values *)

(** What [json.loads] returns and [json.dumps] accepts. A Python dict is
    an association list in insertion order. *)
Inductive json : Type :=
| JNull
| JInt (n : Z)
| JFloat (x : Q)
| JStr (s : string)
| JArr (l : list json)
| JObj (d : list (string * json)).

Module Dict.

Definition get (k : string) (d : list (string * json)) : option json :=
  snd <$> find (fun kv => String.eqb (fst kv) k) d.

Definition keys (d : list (string * json)) : list string := map fst d.

(** [d[k] = v]: an existing key keeps its position. *)
Fixpoint set (k : string) (v : json) (d : list (string * json)) : list (string * json) :=
  match d with
  | [] => [(k, v)]
  | (k', v') :: d' =>
      if String.eqb k' k then (k, v) :: d' else (k', v') :: set k v d'
  end.

(** [{**d, **e}] *)
Definition update (d e : list (string * json)) : list (string * json) :=
  fold_left (fun acc kv => set (fst kv) (snd kv) acc) e d.

End Dict.

(** A two-dimensional float array with its [shape]. *)
Record array2 : Type := Array2 {
  shape0 : nat;
  shape1 : nat;
  cells : list Q
}.

(** A data frame: its columns and, per row, one cell per column; [None]
    is a missing cell. *)
Record frame : Type := Frame {
  columns : list string;
  rows : list (list (option json))
}.

(** ** The file system *)

Inductive content : Type :=
| Text (j : json)          (* the text [json.dumps(j, indent=2) + "\n"] *)
| NpyFloat (a : list Q)    (* [np.save] of a float vector *)
| NpyInt (a : list Z)      (* [np.save] of an index vector *)
| Parquet (t : frame)      (* [DataFrame.to_parquet] *)
| Raw (b : string).        (* any other file, an audio clip for one *)

Inductive node : Type :=
| Dir
| File (c : content).

Inductive exn : Type := Exn (cls msg : string).

Inductive result (A : Type) : Type :=
| Ok (a : A)
| Raise (e : exn).
Arguments Ok {A} a.
Arguments Raise {A} e.

Definition ValueError (msg : string) : exn := Exn "ValueError" msg.

Module FS.

(** The root and the current directory always exist. *)
Definition node_at (fs : gmap (list string) node) (p : list string) : option node :=
  match p with
  | [] => Some Dir
  | [c] => if String.eqb c "/" then Some Dir else fs !! p
  | _ => fs !! p
  end.

Definition exists_ (fs : gmap (list string) node) (p : list string) : bool :=
  match node_at fs p with Some _ => true | None => false end.

Definition is_dir (fs : gmap (list string) node) (p : list string) : bool :=
  match node_at fs p with Some Dir => true | _ => false end.

(** [mkdir(exist_ok=True, parents=True)], walking [ps] from the top. *)
Fixpoint mkdirs (ps : list (list string)) (fs : gmap (list string) node)
  : result (gmap (list string) node) :=
  match ps with
  | [] => Ok fs
  | p :: ps' =>
      match node_at fs p with
      | Some (File _) =>
          Raise (Exn (match ps' with
                      | [] => "FileExistsError"
                      | _ => "NotADirectoryError"
                      end) (Str.join "/" p))
      | Some Dir => mkdirs ps' fs
      | None => mkdirs ps' (<[p := Dir]> fs)
      end
  end.

Definition mkdir (p : list string) (fs : gmap (list string) node)
  : result (gmap (list string) node) :=
  mkdirs (Path.ancestors_and_self p) fs.

(** [open(p, "w")] followed by a write of [c]. *)
Definition put (p : list string) (c : content) (fs : gmap (list string) node)
  : result (gmap (list string) node) :=
  if negb (is_dir fs (removelast p)) then
    Raise (Exn (match node_at fs (removelast p) with
                | Some _ => "NotADirectoryError"
                | None => "FileNotFoundError"
                end) (Str.join "/" p))
  else
    match node_at fs p with
    | Some Dir => Raise (Exn "IsADirectoryError" (Str.join "/" p))
    | _ => Ok (<[p := File c]> fs)
    end.

(** [open(p)] followed by a read. *)
Definition get (p : list string) (fs : gmap (list string) node) : result content :=
  match node_at fs p with
  | Some (File c) => Ok c
  | Some Dir => Raise (Exn "IsADirectoryError" (Str.join "/" p))
  | None => Raise (Exn "FileNotFoundError" (Str.join "/" p))
  end.

Definition ends_with (suffix s : string) : bool :=
  (String.length suffix <=? String.length s)%nat &&
  String.eqb
    (String.substring (String.length s - String.length suffix)
       (String.length suffix) s)
    suffix.

(** [k] lies below the directory [src], through directories only. *)
Definition below (fs : gmap (list string) node) (src k : list string) : bool :=
  (length src <? length k)%nat &&
  bool_decide (take (length src) k = src) &&
  forallb (fun n => is_dir fs (take n k)) (seq (length src) (length k - length src)).

(** [src.glob("**/" + pattern)], where [matches] decides the pattern on
    the final component. The order is the one of the directory scan. *)
Definition rglob (matches : string -> bool) (src : list string)
    (fs : gmap (list string) node) : list (list string) :=
  filter (fun k => below fs src k && matches (Path.name k) = true)
         (map fst (map_to_list fs)).

End FS.

(** ** Effects *)

(** What a run leaves behind besides the files: the calls to the numeric
    collaborators, in order, and every change made to the file system. *)
Inductive event : Type :=
| EvLoad (p : list string)                 (* librosa.load *)
| EvChromaCens (sr hop : Z)                (* librosa.feature.chroma_cens *)
| EvSimpleFast (window : Z)                (* simple_fast *)
| EvMkdir (p : list string)
| EvWrite (p : list string) (c : content)
| EvPrint (t : frame).

Record state : Type := State {
  fs : gmap (list string) node;
  trace : list event
}.

Definition M (A : Type) : Type := state -> result A * state.

Definition ret {A} (a : A) : M A := fun s => (Ok a, s).

Definition raise {A} (e : exn) : M A := fun s => (Raise e, s).

Definition bind {A B} (m : M A) (k : A -> M B) : M B :=
  fun s =>
    match m s with
    | (Ok a, s') => k a s'
    | (Raise e, s') => (Raise e, s')
    end.

Notation "'let*' x := m 'in' k" := (bind m (fun x => k))
  (at level 10, x pattern, m at level 99, k at level 200).
Notation "m ;; k" := (bind m (fun _ => k))
  (at level 100, right associativity).

Definition lift {A} (r : result A) : M A := fun s => (r, s).

Definition log (e : event) : M unit :=
  fun s => (Ok tt, State (fs s) (trace s ++ [e])).

Definition read {A} (f : gmap (list string) node -> A) : M A :=
  fun s => (Ok (f (fs s)), s).

(** A change of the file system, logged as [e] when it succeeds. *)
Definition change (e : event)
    (f : gmap (list string) node -> result (gmap (list string) node)) : M unit :=
  fun s =>
    match f (fs s) with
    | Ok fs' => (Ok tt, State fs' (trace s ++ [e]))
    | Raise x => (Raise x, s)
    end.

Definition mkdir (p : list string) : M unit := change (EvMkdir p) (FS.mkdir p).

Definition write_file (p : list string) (c : content) : M unit :=
  change (EvWrite p c) (FS.put p c).

Definition read_file (p : list string) : M content :=
  fun s => (FS.get p (fs s), s).

Fixpoint mapM {A B} (f : A -> M B) (l : list A) : M (list B) :=
  match l with
  | [] => ret []
  | a :: l' => let* b := f a in let* bs := mapM f l' in ret (b :: bs)
  end.

(** ** Numeric primitives *)

Definition Qltb (x y : Q) : bool :=
  match (x ?= y)%Q with Lt => true | _ => false end.

(** [round(x)] for a float: to the nearest integer, ties to even. *)
Definition round_half_even (x : Q) : Z :=
  let f := Qfloor x in
  match (x - inject_Z f ?= 1 # 2)%Q with
  | Lt => f
  | Gt => f + 1
  | Eq => if Z.even f then f else f + 1
  end.

(** [round(x, 2)] *)
Definition round2 (x : Q) : Q := Qmake (round_half_even (x * 100)) 100.

(** [np.argmin] on a vector: the scan keeps the earliest least value. *)
Fixpoint argmin_from (best_i : nat) (best : Q) (i : nat) (l : list Q) : nat :=
  match l with
  | [] => best_i
  | x :: l' =>
      if Qltb x best then argmin_from i x (S i) l'
      else argmin_from best_i best (S i) l'
  end.

Definition argmin (l : list Q) : result nat :=
  match l with
  | [] => Raise (ValueError "attempt to get argmin of an empty sequence")
  | x :: l' => Ok (argmin_from 0 x 1 l')
  end.

(** [a[i]] for an index that is not negative. *)
Definition getitem {A} (a : list A) (i : nat) : result A :=
  match a !! i with
  | Some x => Ok x
  | None => Raise (Exn "IndexError" "index out of bounds")
  end.

(** ** Collaborators *)

(** The functions [write] calls and this module does not define. *)
Record collaborators : Type := Collaborators {
  (* librosa.load: the decoded samples and their rate *)
  librosa_load : content -> result (list Q * Z);
  (* librosa.get_duration(y=, sr=) *)
  get_duration : list Q -> Z -> Q;
  (* birdclef.utils.cens_per_sec(sample_rate, cens_sr) *)
  cens_per_sec : Z -> Z -> result Z;
  (* librosa.feature.chroma_cens(y=, sr=, hop_length=) *)
  chroma_cens : list Q -> Z -> Z -> result array2;
  (* simple.simple_fast(data, query, window_size) *)
  simple_fast : array2 -> array2 -> Z -> result (list Q * list Z)
}.

Definition load (C : collaborators) (p : list string) : M (list Q * Z) :=
  log (EvLoad p) ;;
  let* c := read_file p in
  lift (librosa_load C c).

(** ** [write] *)

Definition outputs : list string := ["metadata.json"; "mp.npy"; "pi.npy"].

Definition metadata (input_path : list string) (cens_sr mp_window sample_rate : Z)
    (cens : array2) (data : list Q) (duration : Q) : list (string * json) :=
  [ ("source_name", JStr (Str.join "/" (Path.last_parts 3 input_path)));
    ("cens_sample_rate", JInt cens_sr);
    ("matrix_profile_window", JInt mp_window);
    ("sample_rate", JInt sample_rate);
    ("duration_cens", JInt (Z.of_nat (shape1 cens)));
    ("duration_samples", JInt (Z.of_nat (length data)));
    ("duration_seconds", JFloat (round2 duration));
    ("motif_0", JNull);
    ("motif_1", JNull) ].

Definition write (C : collaborators) (input_path output_path : list string)
    (cens_sr mp_window : Z) : M unit :=
  let* out_exists := read (fun fs => FS.exists_ fs output_path) in
  let* out_is_dir := read (fun fs => FS.is_dir fs output_path) in
  if out_exists && negb out_is_dir then
    raise (ValueError "output_path should be a folder")
  else
    (* new directory for each set of files *)
    let name := Str.split_head ".ogg" (Path.name input_path) in
    let path := output_path // name in
    (* exit early if all the data already exists *)
    let* complete := read (fun fs =>
      FS.exists_ fs path && FS.is_dir fs path &&
      forallb (fun x => FS.exists_ fs (path // x)) outputs) in
    if complete then ret tt
    else
      (* read the audio file and calculate the position of the motif *)
      let* (data, sample_rate) := load C input_path in
      let duration := get_duration C data sample_rate in
      let* hop := lift (cens_per_sec C sample_rate cens_sr) in
      log (EvChromaCens sample_rate hop) ;;
      let* cens := lift (chroma_cens C data sample_rate hop) in
      let metadata :=
        metadata input_path cens_sr mp_window sample_rate cens data duration in
      mkdir path ;;
      if Qltb duration 5 then
        (* the duration is too short, but let's still write out useful data *)
        write_file (path // "metadata.json") (Text (JObj metadata))
      else
        log (EvSimpleFast mp_window) ;;
        let* (mp, pi) := lift (simple_fast C cens cens mp_window) in
        let* motif := lift (argmin mp) in
        let* pi_motif := lift (getitem pi motif) in
        let idx := (Z.of_nat motif, pi_motif) in
        write_file (path // "metadata.json")
          (Text (JObj (Dict.update metadata
                         [("motif_0", JInt (fst idx)); ("motif_1", JInt (snd idx))]))) ;;
        write_file (path // "mp.npy") (NpyFloat mp) ;;
        write_file (path // "pi.npy") (NpyInt pi).

(** ** The commands *)

(** [Pool.starmap] and [Pool.map]: the tasks are run here one after the
    other, in the order of the task list, up to the first that raises.
    For the reads of [consolidate], which change nothing, this is the
    result of the pool; what the workers of [extract] still do to the
    disk after one of them has failed is not part of the embedding. *)
Definition starmap {A B} (f : A -> M B) (args : list A) : M (list B) := mapM f args.

(** [path.relative_to(root)] *)
Definition relative_to (p root : list string) : result (list string) :=
  if bool_decide (take (length root) p = root) then Ok (drop (length root) p)
  else Raise (ValueError "path is not in the subpath of root").

(** [extract] from its glob on, with the names it reads bound. *)
Definition extract_files (C : collaborators) (rel_root src dst : list string) : M unit :=
  let* files := read (FS.rglob (FS.ends_with ".ogg") src) in
  match files with
  | [] => raise (ValueError "no files found")
  | _ =>
      let* args := mapM (fun path =>
                    let* rel := lift (relative_to path rel_root) in
                    ret (path, (dst ++ removelast rel)%list, 10, 50)) files in
      starmap (fun '(input_path, output_path, cens_sr, mp_window) =>
                 write C input_path output_path cens_sr mp_window) args ;;
      ret tt
  end.

(** The command [extract(species, dataset)]. Its body reads [output] for
    the destination at line 94, a name that is neither a parameter (the
    option [--output] has no parameter of its name) nor a local nor a
    global of the module: Python raises [NameError] there, before the
    glob. *)
Definition extract (C : collaborators) (ROOT : list string)
    (species : option string) (dataset : string) : M unit :=
  let rel_root := ROOT // "data/raw/birdclef-2022/train_audio" in
  let src := match species with
             | None | Some EmptyString => rel_root
             | Some sp => rel_root // sp
             end in
  let* output := (raise (Exn "NameError" "name 'output' is not defined") : M string) in
  let dst := ROOT // ("data/intermediate/" ++ output) in
  extract_files C rel_root src dst.

Definition _read_json (path : list string) : M json :=
  let* c := read_file path in
  match c with
  | Text j => ret j
  | _ => raise (Exn "JSONDecodeError" (Str.join "/" path))
  end.

Module Frame.

(** The keys in order of first appearance. *)
Fixpoint uniq (seen l : list string) : list string :=
  match l with
  | [] => []
  | k :: l' =>
      if bool_decide (k ∈ seen) then uniq seen l' else k :: uniq (k :: seen) l'
  end.

Fixpoint records (data : list json) : option (list (list (string * json))) :=
  match data with
  | [] => Some []
  | JObj d :: data' => cons d <$> records data'
  | _ :: _ => None
  end.

(** The type pandas settles on for a column ([lib.maybe_convert_objects]).
    The column starts as an array of objects, a cell per record, with
    [nan] where the record lacks the key; [nan] is the missing cell
    [None] here, and [null] the cell [Some JNull]. A column that holds a
    string, an array or an object stays as it is. A column of numbers
    that holds a float or [nan], or both an integer and [null], becomes
    a column of floats: an integer becomes the float of its value (the
    same value up to a magnitude of [2 ^ 53], which is as far as the
    statements go) and [null] becomes [nan]. Any other column, of
    integers only or of [null] only, stays as it is. *)
Definition is_object (c : option json) : bool :=
  match c with
  | Some (JStr _) | Some (JArr _) | Some (JObj _) => true
  | _ => false
  end.

Definition is_float (c : option json) : bool :=
  match c with
  | Some (JFloat _) | None => true
  | _ => false
  end.

Definition is_int (c : option json) : bool :=
  match c with
  | Some (JInt _) => true
  | _ => false
  end.

Definition is_null (c : option json) : bool :=
  match c with
  | Some JNull => true
  | _ => false
  end.

Definition to_float (c : option json) : option json :=
  match c with
  | Some (JInt n) => Some (JFloat (inject_Z n))
  | Some JNull => None
  | _ => c
  end.

Definition convert (col : list (option json)) : list (option json) :=
  if existsb is_object col then col
  else if existsb is_float col || (existsb is_int col && existsb is_null col)
  then map to_float col
  else col.

(** [pd.DataFrame(data)] for a list of records: the columns are the keys
    of all the records in the order they first appear, each column
    typed as pandas types it, and row [i] holds cell [i] of every
    column. What pandas builds from values that are not records is not
    part of this embedding, which raises on them. *)
Definition DataFrame (data : list json) : result frame :=
  match records data with
  | Some ds =>
      let cols := uniq [] (concat (map Dict.keys ds)) in
      let typed := map (fun c => convert (map (Dict.get c) ds)) cols in
      Ok (Frame cols
            (map (fun i => map (fun col => default None (col !! i)) typed)
               (seq 0 (length ds))))
  | None => Raise (Exn "TypeError" "rows that are not records")
  end.

(** [df.head()] *)
Definition head (t : frame) : frame := Frame (columns t) (take 5 (rows t)).

(** The value of row [i] in column [k], if the row has one. *)
Definition field (t : frame) (i : nat) (k : string) : option json :=
  r ← rows t !! i;
  cell ← snd <$> find (fun kv => String.eqb (fst kv) k) (zip (columns t) r);
  cell.

End Frame.

(** The command [consolidate(input, output)]. *)
Definition consolidate (ROOT : list string) (input output : string) : M unit :=
  let src := ROOT // ("data/intermediate/" ++ input) in
  let dst := ROOT // ("data/intermediate/" ++ output ++ ".parquet") in
  let* files := read (FS.rglob (String.eqb "metadata.json") src) in
  match files with
  | [] => raise (ValueError "no files found")
  | _ =>
      let* data := starmap _read_json files in
      let* df := lift (Frame.DataFrame data) in
      log (EvPrint (Frame.head df)) ;;
      write_file dst (Parquet df)
  end.

(** ** Vocabulary of the statements *)

(** The first test of [write]: the output path exists and is no folder. *)
Definition output_blocked (fs : gmap (list string) node) (output_path : list string) : bool :=
  FS.exists_ fs output_path && negb (FS.is_dir fs output_path).

(** The second test of [write]: the recording's folder holds all of
    [metadata.json], [mp.npy] and [pi.npy]. *)
Definition already_complete (fs : gmap (list string) node) (path : list string) : bool :=
  FS.exists_ fs path && FS.is_dir fs path &&
  forallb (fun x => FS.exists_ fs (path // x)) outputs.

(** None of the files [names] of the folder [path] is itself a folder. *)
Definition writable (fs : gmap (list string) node) (path : list string)
    (names : list string) : bool :=
  forallb (fun x => negb (FS.is_dir fs (path // x))) names.

(** A run of [write] from [st] gets as far as its [if duration < 5]:
    the output path is usable, the outputs are not all there, the clip
    decodes to [data] at [sr], the features [cens] are extracted with
    hop [hop], and the recording's folder can be made, giving [fs1]. *)
Definition prepared (C : collaborators) (input_path output_path : list string)
    (cens_sr : Z) (st : state) (data : list Q) (sr hop : Z) (cens : array2)
    (fs1 : gmap (list string) node) : Prop :=
  output_blocked (fs st) output_path = false /\
  already_complete (fs st) (recording_dir input_path output_path) = false /\
  (exists c, FS.get input_path (fs st) = Ok c /\ librosa_load C c = Ok (data, sr)) /\
  cens_per_sec C sr cens_sr = Ok hop /\
  chroma_cens C data sr hop = Ok cens /\
  FS.mkdir (recording_dir input_path output_path) (fs st) = Ok fs1.

(** The events a run from [st] to [st'] has added. *)
Definition new_events (st st' : state) : list event :=
  drop (length (trace st)) (trace st').

(** The record [write] dumps: [metadata], with the motif pair set when
    there is one. *)
Definition metadata_with (input_path : list string) (cens_sr mp_window sample_rate : Z)
    (cens : array2) (data : list Q) (duration : Q) (m : option (Z * Z))
  : list (string * json) :=
  match m with
  | None => metadata input_path cens_sr mp_window sample_rate cens data duration
  | Some idx =>
      Dict.update
        (metadata input_path cens_sr mp_window sample_rate cens data duration)
        [("motif_0", JInt (fst idx)); ("motif_1", JInt (snd idx))]
  end.

Definition metadata_keys : list string :=
  [ "source_name"; "cens_sample_rate"; "matrix_profile_window"; "sample_rate";
    "duration_cens"; "duration_samples"; "duration_seconds"; "motif_0"; "motif_1" ].

Definition is_int_or_null (j : option json) : Prop :=
  j = Some JNull \/ exists n, j = Some (JInt n).

(** [i] is where the least value of [l] first occurs. *)
Definition first_min (l : list Q) (i : nat) : Prop :=
  exists x, l !! i = Some x /\
    (forall j y, l !! j = Some y -> (x <= y)%Q) /\
    (forall j y, (j < i)%nat -> l !! j = Some y -> (x < y)%Q).

(** A filename that is one path component: not empty, not [.], and
    without a separator. *)
Definition plain (s : string) : Prop :=
  s <> EmptyString /\ s <> "." /\ Str.occurs "/" s = false.

(** A path that names its file in one way only: after the root, if it
    has one, every part is a name other than [.] and [..], not empty and
    without a separator. *)
Definition canonical (p : list string) : Prop :=
  Forall (fun c => plain c /\ c <> "..")
    (match p with
     | c :: p' => if String.eqb c "/" then p' else p
     | [] => p
     end).

(** Two paths that are both absolute or both relative. *)
Definition same_anchor (p q : list string) : Prop :=
  match p, q with
  | c :: _, d :: _ => String.eqb c "/" = String.eqb d "/"
  | c :: _, [] | [], c :: _ => String.eqb c "/" = false
  | [], [] => True
  end.

(** A record as [write] leaves it in [metadata.json]: the nine keys in
    their order, a string, five integers and a float, then the two
    motif fields, each [null] or an integer. The integers are in the
    range of a 64-bit integer, and a motif index is of a magnitude that
    a float holds exactly. *)
Definition int64 (n : Z) : Prop := (- 2 ^ 63 <= n < 2 ^ 63)%Z.

Definition motif_value (j : json) : Prop :=
  j = JNull \/ exists n, j = JInt n /\ (Z.abs n <= 2 ^ 53)%Z.

Definition written_record (d : list (string * json)) : Prop :=
  exists (source : string) (cens_sr w sr frames samples : Z) (seconds : Q)
         (m0 m1 : json),
    d = [ ("source_name", JStr source);
          ("cens_sample_rate", JInt cens_sr);
          ("matrix_profile_window", JInt w);
          ("sample_rate", JInt sr);
          ("duration_cens", JInt frames);
          ("duration_samples", JInt samples);
          ("duration_seconds", JFloat seconds);
          ("motif_0", m0);
          ("motif_1", m1) ] /\
    int64 cens_sr /\ int64 w /\ int64 sr /\ int64 frames /\ int64 samples /\
    motif_value m0 /\ motif_value m1.

(** Among the records [ds], the key [k] holds an integer in one and
    [null] in another. *)
Definition mixes_int_and_null (k : string) (ds : list (list (string * json))) : bool :=
  existsb (fun d => Frame.is_int (Dict.get k d)) ds &&
  existsb (fun d => Frame.is_null (Dict.get k d)) ds.

(** Where [extract] looks for clips. *)
Definition extract_src (ROOT : list string) (species : option string) : list string :=
  let rel_root := ROOT // "data/raw/birdclef-2022/train_audio" in
  match species with
  | None | Some EmptyString => rel_root
  | Some sp => rel_root // sp
  end.

(** Where [consolidate] looks for records, and where it puts the table. *)
Definition consolidate_src (ROOT : list string) (input : string) : list string :=
  ROOT // ("data/intermediate/" ++ input).

Definition consolidate_dst (ROOT : list string) (output : string) : list string :=
  ROOT // ("data/intermediate/" ++ output ++ ".parquet").

(** A run of [write] that ends in an [InvalidWindowError] and leaves the
    file system as it found it. *)
Definition rejects_window (C : collaborators) (input_path output_path : list string)
    (cens_sr mp_window : Z) (st : state) : Prop :=
  let r := write C input_path output_path cens_sr mp_window st in
  (exists msg, fst r = Raise (Exn "InvalidWindowError" msg)) /\
  fs (snd r) = fs st.

(** ** A small world to run the code in *)

Module Fixture.

(** A clip file of [n] characters decodes to [n] samples at 10 Hz. The
    hop follows the feature extractor's contract,
    [hop_length = sample_rate / target_frame_rate]; the extractor gives
    a frame every [hop] samples and one more; the locator refuses a
    window above half the frames or below 4 with a [ValueError], and
    otherwise returns a profile with one entry per window position. *)
Definition profile (frames : nat) (w : Z) : list Q * list Z :=
  let n := (frames - Z.to_nat w + 1)%nat in
  (map (fun i => Qmake ((Z.of_nat i - 2) * (Z.of_nat i - 2)) 1) (seq 0 n),
   map (fun i => Z.of_nat ((i + Z.to_nat w) mod n)) (seq 0 n)).

Definition C : collaborators :=
  Collaborators
    (fun c => match c with
              | Raw b => Ok (repeat (0 # 1)%Q (String.length b), 10)
              | _ => Raise (Exn "NoBackendError" "")
              end)
    (fun data sr => Qmake (Z.of_nat (length data)) (Z.to_pos sr))
    (fun sr target =>
       if target =? 0 then Raise (Exn "ZeroDivisionError" "division by zero")
       else Ok (sr / target))
    (fun data sr hop => Ok (Array2 12 (length data / Z.to_nat hop + 1) []))
    (fun data query w =>
       if (Z.of_nat (shape1 query) <? 2 * w) then
         Raise (ValueError "Time series is too short relative to desired window size")
       else if w <? 4 then Raise (ValueError "Window size must be at least 4")
       else Ok (profile (shape1 data) w)).

(** 49 samples: 4.9 seconds. *)
Definition short_clip : content :=
  Raw "0123456789012345678901234567890123456789012345678".

(** 51 samples: 5.1 seconds. *)
Definition long_clip : content :=
  Raw "012345678901234567890123456789012345678901234567890".

(** The repository is the working directory. *)
Definition ROOT : list string := [].

Definition audio : list string :=
  ["data"; "raw"; "birdclef-2022"; "train_audio"; "afrsil1"].

Definition short_ogg : list string := audio ++ ["XC1.ogg"].

Definition long_ogg : list string := audio ++ ["XC2.ogg"].

Definition disk : gmap (list string) node :=
  list_to_map
    [ (["data"], Dir);
      (["data"; "raw"], Dir);
      (["data"; "raw"; "birdclef-2022"], Dir);
      (["data"; "raw"; "birdclef-2022"; "train_audio"], Dir);
      (audio, Dir);
      (short_ogg, File short_clip);
      (long_ogg, File long_clip);
      (["notes.txt"], File (Raw "todo")) ].

Definition start : state := State disk [].

Definition out : list string := ["data"; "intermediate"; "motif"; "afrsil1"].

(** The state after both clips went through [write] with a window of 10. *)
Definition extracted : state :=
  snd (write C long_ogg out 10 10 (snd (write C short_ogg out 10 10 start))).

(** The records on disk after that, in the order [consolidate] finds them. *)
Definition found : list (list (string * json)) :=
  omap (fun f => match FS.get f (fs extracted) with
                 | Ok (Text (JObj d)) => Some d
                 | _ => None
                 end)
       (FS.rglob (String.eqb "metadata.json") (consolidate_src ROOT "motif")
          (fs extracted)).

End Fixture.

(** ** Collaborators and disks that go wrong *)

Module Faulty.

(** As [Fixture.C], with a locator that returns an empty profile. *)
Definition empty_profile : collaborators :=
  Collaborators (librosa_load Fixture.C) (get_duration Fixture.C)
    (cens_per_sec Fixture.C) (chroma_cens Fixture.C)
    (fun _ _ _ => Ok ([], [])).

(** The disk after [Fixture.extracted], with a third folder whose
    [metadata.json] is cut short. *)
Definition broken : state :=
  State (<[(Fixture.out ++ ["XC3"; "metadata.json"])%list := File (Raw "{")]>
           (<[(Fixture.out ++ ["XC3"])%list := Dir]> (fs Fixture.extracted)))
        [].

End Faulty.

(** * Proofs *)

Local Open Scope list_scope.

(** ** Facts about the file system *)

Section FileSystem.

Implicit Types (fs : gmap (list string) node) (p q : list string).

Lemma node_at_insert_ne fs p q n :
  p <> q -> FS.node_at (<[q := n]> fs) p = FS.node_at fs p.
Proof.
  intros Hne. unfold FS.node_at.
  destruct p as [|c [|c' p]]; try reflexivity.
  - destruct (String.eqb c "/"); [reflexivity|]. now rewrite lookup_insert_ne.
  - now rewrite lookup_insert_ne.
Qed.

Lemma is_dir_insert_ne fs p q n :
  p <> q -> FS.is_dir (<[q := n]> fs) p = FS.is_dir fs p.
Proof. intros. unfold FS.is_dir. now rewrite node_at_insert_ne. Qed.

Lemma is_dir_insert_dir fs p q :
  FS.is_dir fs p = true -> FS.is_dir (<[q := Dir]> fs) p = true.
Proof.
  intros H. destruct (decide (p = q)) as [->|Hne].
  - unfold FS.is_dir, FS.node_at in *.
    destruct q as [|c [|c' q]]; try reflexivity.
    + destruct (String.eqb c "/"); [reflexivity|]. now rewrite lookup_insert_eq.
    + now rewrite lookup_insert_eq.
  - now rewrite is_dir_insert_ne.
Qed.

Lemma is_dir_insert_eq fs p : FS.is_dir (<[p := Dir]> fs) p = true.
Proof.
  unfold FS.is_dir, FS.node_at.
  destruct p as [|c [|c' p]]; try reflexivity.
  - destruct (String.eqb c "/"); [reflexivity|]. now rewrite lookup_insert_eq.
  - now rewrite lookup_insert_eq.
Qed.

Lemma mkdirs_keeps_dirs ps : forall fs fs' p,
  FS.mkdirs ps fs = Ok fs' -> FS.is_dir fs p = true -> FS.is_dir fs' p = true.
Proof.
  induction ps as [|q ps IH]; intros fs fs' p H Hd; simpl in H.
  - congruence.
  - destruct (FS.node_at fs q) as [[|c]|]; try discriminate.
    + eauto.
    + eapply IH; [exact H|]. now apply is_dir_insert_dir.
Qed.

Lemma mkdirs_makes_dirs ps : forall fs fs' p,
  FS.mkdirs ps fs = Ok fs' -> In p ps -> FS.is_dir fs' p = true.
Proof.
  induction ps as [|q ps IH]; intros fs fs' p H Hin; [destruct Hin|].
  simpl in H. destruct (FS.node_at fs q) as [[|c]|] eqn:E; try discriminate.
  - destruct Hin as [->|Hin]; [|eauto].
    eapply mkdirs_keeps_dirs; [exact H|]. unfold FS.is_dir. now rewrite E.
  - destruct Hin as [->|Hin]; [|eauto].
    eapply mkdirs_keeps_dirs; [exact H|]. apply is_dir_insert_eq.
Qed.

Lemma mkdirs_elsewhere ps : forall fs fs' p,
  FS.mkdirs ps fs = Ok fs' -> ~ In p ps -> FS.node_at fs' p = FS.node_at fs p.
Proof.
  induction ps as [|q ps IH]; intros fs fs' p H Hn; simpl in H.
  - congruence.
  - destruct (FS.node_at fs q) as [[|c]|]; try discriminate.
    + apply IH; [exact H|]. intros ?; apply Hn; now right.
    + rewrite (IH _ _ _ H); [|intros ?; apply Hn; now right].
      apply node_at_insert_ne. intros ->. apply Hn. now left.
Qed.

Lemma mkdir_is_dir fs fs' p : FS.mkdir p fs = Ok fs' -> FS.is_dir fs' p = true.
Proof.
  intros H. destruct p as [|c p]; [reflexivity|].
  eapply mkdirs_makes_dirs; [exact H|].
  unfold Path.ancestors_and_self. apply in_map_iff.
  exists (length (c :: p)). split; [apply firstn_all|].
  apply in_seq. simpl. lia.
Qed.

Lemma mkdir_below fs fs' p x :
  FS.mkdir p fs = Ok fs' -> FS.node_at fs' (p ++ [x]) = FS.node_at fs (p ++ [x]).
Proof.
  intros H. eapply mkdirs_elsewhere; [exact H|].
  unfold Path.ancestors_and_self. rewrite in_map_iff. intros (n & Hn & _).
  apply (f_equal (@length _)) in Hn. rewrite length_take, length_app in Hn.
  simpl in Hn. lia.
Qed.

Lemma put_ok fs p x c :
  FS.is_dir fs p = true -> FS.is_dir fs (p ++ [x]) = false ->
  FS.put (p ++ [x]) c fs = Ok (<[p ++ [x] := File c]> fs).
Proof.
  intros Hp Hx. unfold FS.put. rewrite removelast_last, Hp. simpl.
  unfold FS.is_dir in Hx. destruct (FS.node_at fs (p ++ [x])) as [[|]|]; congruence.
Qed.

Lemma app_single_ne p (x y : string) : x <> y -> p ++ [x] <> p ++ [y].
Proof. intros Hne H. apply app_inv_head in H. congruence. Qed.

Lemma app_single_ne_self p (x : string) : p <> p ++ [x].
Proof.
  intros H. apply (f_equal (@length _)) in H. rewrite length_app in H. simpl in H. lia.
Qed.

End FileSystem.

(** ** The name of the recording *)

Section Ogg.

Lemma prefix_cons (a b : ascii) (s t : string) :
  String.prefix (String a s) (String b t) =
  if ascii_dec a b then String.prefix s t else false.
Proof. reflexivity. Qed.

Lemma append_cons (a : ascii) (s t : string) :
  String.append (String a s) t = String a (String.append s t).
Proof. reflexivity. Qed.



Lemma name_last (dir : list string) (c : string) :
  String.eqb c "/" = false -> Path.name (dir ++ [c]) = c.
Proof.
  intros H. unfold Path.name. rewrite last_snoc. now rewrite H.
Qed.


End Ogg.

(** ** Runs of [write] *)

Section WriteRuns.

Context (C : collaborators) (input_path output_path : list string)
        (cens_sr mp_window : Z) (st : state).

Local Abbreviation path := (recording_dir input_path output_path).

Lemma div_metadata (p : list string) : p // "metadata.json" = p ++ ["metadata.json"].
Proof. reflexivity. Qed.

Lemma div_mp (p : list string) : p // "mp.npy" = p ++ ["mp.npy"].
Proof. reflexivity. Qed.

Lemma div_pi (p : list string) : p // "pi.npy" = p ++ ["pi.npy"].
Proof. reflexivity. Qed.

Lemma write_blocked :
  output_blocked (fs st) output_path = true ->
  write C input_path output_path cens_sr mp_window st =
  (Raise (ValueError "output_path should be a folder"), st).
Proof.
  intros H. unfold write, bind, read, raise. unfold output_blocked in H.
  now rewrite H.
Qed.

Lemma write_skips :
  output_blocked (fs st) output_path = false ->
  already_complete (fs st) path = true ->
  write C input_path output_path cens_sr mp_window st = (Ok tt, st).
Proof.
  intros Hb Hc. unfold write, bind, read, ret.
  unfold output_blocked in Hb. rewrite Hb.
  unfold already_complete, recording_dir, recording_name in Hc.
  now rewrite Hc.
Qed.

Ltac prelude H :=
  let Hb := fresh "Hb" in
  let Hc := fresh "Hc" in
  let c := fresh "c" in
  let Hget := fresh "Hget" in
  let Hdec := fresh "Hdec" in
  let Hhop := fresh "Hhop" in
  let Hcens := fresh "Hcens" in
  let Hdir := fresh "Hdir" in
  destruct H as (Hb & Hc & (c & Hget & Hdec) & Hhop & Hcens & Hdir);
  unfold write, load, read_file, mkdir, write_file, change, lift, log, read, raise, ret, bind;
  unfold output_blocked in Hb; rewrite Hb;
  unfold already_complete, recording_dir, recording_name in Hc; rewrite Hc;
  cbn [fs trace]; rewrite Hget, Hdec, Hhop, Hcens;
  cbn [fs trace]; unfold recording_dir, recording_name in Hdir; rewrite Hdir.

Lemma write_short data sr hop cens fs1 :
  prepared C input_path output_path cens_sr st data sr hop cens fs1 ->
  Qltb (get_duration C data sr) 5 = true ->
  FS.is_dir (fs st) (path // "metadata.json") = false ->
  write C input_path output_path cens_sr mp_window st =
  (Ok tt,
   State (<[path ++ ["metadata.json"] :=
             File (Text (JObj (metadata_with input_path cens_sr mp_window sr cens data
                                 (get_duration C data sr) None)))]> fs1)
         (trace st ++
          [EvLoad input_path; EvChromaCens sr hop; EvMkdir path;
           EvWrite (path ++ ["metadata.json"])
             (Text (JObj (metadata_with input_path cens_sr mp_window sr cens data
                            (get_duration C data sr) None)))])).
Proof.
  intros H Hd Hw. pose proof H as (_ & _ & _ & _ & _ & Hmk).
  prelude H. rewrite Hd. cbn [fs trace].
  rewrite div_metadata in *. fold (recording_name input_path).
  fold (recording_dir input_path output_path).
  rewrite put_ok.
  - unfold metadata_with. now rewrite <- !app_assoc.
  - eapply mkdir_is_dir; exact Hmk.
  - unfold FS.is_dir. rewrite (mkdir_below _ _ _ _ Hmk). exact Hw.
Qed.

Lemma writable_outputs :
  writable (fs st) path outputs = true ->
  FS.is_dir (fs st) (path ++ ["metadata.json"]) = false /\
  FS.is_dir (fs st) (path ++ ["mp.npy"]) = false /\
  FS.is_dir (fs st) (path ++ ["pi.npy"]) = false.
Proof.
  unfold writable, outputs. cbn [forallb].
  rewrite div_metadata, div_mp, div_pi, !andb_true_iff, !negb_true_iff. tauto.
Qed.

Lemma write_long data sr hop cens fs1 mp pi motif pi_motif :
  prepared C input_path output_path cens_sr st data sr hop cens fs1 ->
  Qltb (get_duration C data sr) 5 = false ->
  simple_fast C cens cens mp_window = Ok (mp, pi) ->
  argmin mp = Ok motif ->
  pi !! motif = Some pi_motif ->
  writable (fs st) path outputs = true ->
  let record :=
    Text (JObj (metadata_with input_path cens_sr mp_window sr cens data
                  (get_duration C data sr) (Some (Z.of_nat motif, pi_motif)))) in
  write C input_path output_path cens_sr mp_window st =
  (Ok tt,
   State (<[path ++ ["pi.npy"] := File (NpyInt pi)]>
            (<[path ++ ["mp.npy"] := File (NpyFloat mp)]>
               (<[path ++ ["metadata.json"] := File record]> fs1)))
         (trace st ++
          [EvLoad input_path; EvChromaCens sr hop; EvMkdir path;
           EvSimpleFast mp_window;
           EvWrite (path ++ ["metadata.json"]) record;
           EvWrite (path ++ ["mp.npy"]) (NpyFloat mp);
           EvWrite (path ++ ["pi.npy"]) (NpyInt pi)])).
Proof.
  intros H Hd Hsf Harg Hpi Hw record. pose proof H as (_ & _ & _ & _ & _ & Hmk).
  apply writable_outputs in Hw as (Hw0 & Hw1 & Hw2).
  pose proof (mkdir_is_dir _ _ _ Hmk) as Hp.
  prelude H. rewrite Hd. cbn [fs trace]. rewrite Hsf, Harg.
  unfold getitem. rewrite Hpi. cbn [fs trace fst snd].
  rewrite div_metadata, div_mp, div_pi in *. fold (recording_name input_path).
  fold (recording_dir input_path output_path).
  fold (metadata_with input_path cens_sr mp_window sr cens data
          (get_duration C data sr) (Some (Z.of_nat motif, pi_motif))).
  fold record.
  rewrite put_ok; [cbn [fs trace] | exact Hp |].
  2:{ unfold FS.is_dir. now rewrite (mkdir_below _ _ _ _ Hmk). }
  rewrite put_ok; [cbn [fs trace] | |].
  2:{ rewrite is_dir_insert_ne; [exact Hp | apply app_single_ne_self]. }
  2:{ rewrite is_dir_insert_ne; [|now apply app_single_ne].
      unfold FS.is_dir. now rewrite (mkdir_below _ _ _ _ Hmk). }
  rewrite put_ok; [cbn [fs trace] | |].
  2:{ rewrite !is_dir_insert_ne; [exact Hp | apply app_single_ne_self ..]. }
  2:{ rewrite !is_dir_insert_ne; [| now apply app_single_ne ..].
      unfold FS.is_dir. now rewrite (mkdir_below _ _ _ _ Hmk). }
  now rewrite <- !app_assoc.
Qed.

Lemma write_locator_raises data sr hop cens fs1 e :
  prepared C input_path output_path cens_sr st data sr hop cens fs1 ->
  Qltb (get_duration C data sr) 5 = false ->
  simple_fast C cens cens mp_window = Raise e ->
  write C input_path output_path cens_sr mp_window st =
  (Raise e,
   State fs1
         (trace st ++
          [EvLoad input_path; EvChromaCens sr hop; EvMkdir path;
           EvSimpleFast mp_window])).
Proof.
  intros H Hd Hsf. prelude H. rewrite Hd. cbn [fs trace]. rewrite Hsf.
  fold (recording_name input_path). fold (recording_dir input_path output_path).
  now rewrite <- !app_assoc.
Qed.

(** What any run of [write] adds to the trace, whatever its outcome:
    the only text it writes is the record of the recording. *)
Lemma write_trace r st' :
  write C input_path output_path cens_sr mp_window st = (r, st') ->
  exists evs, trace st' = trace st ++ evs /\
    forall p j, In (EvWrite p (Text j)) evs ->
      p = path ++ ["metadata.json"] /\
      exists c data sr hop cens m,
        FS.get input_path (fs st) = Ok c /\ librosa_load C c = Ok (data, sr) /\
        cens_per_sec C sr cens_sr = Ok hop /\
        chroma_cens C data sr hop = Ok cens /\
        j = JObj (metadata_with input_path cens_sr mp_window sr cens data
                    (get_duration C data sr) m) /\
        match m with
        | None => Qltb (get_duration C data sr) 5 = true
        | Some idx =>
            Qltb (get_duration C data sr) 5 = false /\
            exists mp pi i,
              simple_fast C cens cens mp_window = Ok (mp, pi) /\
              argmin mp = Ok i /\ fst idx = Z.of_nat i /\ pi !! i = Some (snd idx)
        end.
Proof.
  unfold write, load, read_file, mkdir, write_file, change, lift, log, read,
    raise, ret, bind, getitem.
  rewrite div_metadata. fold (recording_name input_path).
  fold (recording_dir input_path output_path).
  cbn [fs trace]. intros H.
  repeat (let E := fresh "E" in case_match eqn:E; cbn [fs trace] in *);
    simplify_eq; cbn [fs trace];
    rewrite <- ?app_assoc; cbn [app];
    (eexists; split; [first [reflexivity | symmetry; apply app_nil_r] |]);
    intros p j Hin; cbn [In] in Hin; intuition (try discriminate); simplify_eq.
  all: try reflexivity.
  - do 5 eexists. exists None. repeat split; eauto.
  - do 5 eexists. eexists (Some (_, _)). repeat split; eauto.
    cbn [fst snd]. eauto 10.
  - do 5 eexists. eexists (Some (_, _)). repeat split; eauto.
    cbn [fst snd]. eauto 10.
  - do 5 eexists. eexists (Some (_, _)). repeat split; eauto.
    cbn [fst snd]. eauto 10.
Qed.

End WriteRuns.

(** ** Numeric primitives *)

Section Numeric.

Lemma Qltb_lt (x y : Q) : Qltb x y = true <-> (x < y)%Q.
Proof.
  unfold Qltb. rewrite Qlt_alt. destruct (x ?= y)%Q; intuition congruence.
Qed.

Lemma Qltb_ge (x y : Q) : Qltb x y = false <-> (y <= x)%Q.
Proof.
  split; intros H.
  - apply Qnot_lt_le. intros Hlt. apply Qltb_lt in Hlt. congruence.
  - destruct (Qltb x y) eqn:E; [|reflexivity].
    apply Qltb_lt in E. exfalso. eapply Qlt_not_le; eauto.
Qed.

Lemma argmin_from_first_min (l : list Q) : forall (pre : list Q) (bi : nat) (b : Q),
  pre !! bi = Some b ->
  (forall j y, pre !! j = Some y -> (b <= y)%Q) ->
  (forall j y, (j < bi)%nat -> pre !! j = Some y -> (b < y)%Q) ->
  first_min (pre ++ l) (argmin_from bi b (length pre) l).
Proof.
  induction l as [|x l IH]; intros pre bi b Hb Hle Hlt.
  - rewrite app_nil_r. exists b. auto.
  - pose proof (lookup_lt_Some _ _ _ Hb) as Hbi.
    change (pre ++ x :: l) with (pre ++ [x] ++ l). rewrite app_assoc.
    cbn [argmin_from]. destruct (Qltb x b) eqn:E.
    + apply Qltb_lt in E.
      replace (S (length pre)) with (length (pre ++ [x]))
        by (rewrite length_app; simpl; lia).
      apply IH.
      * rewrite lookup_app_r by lia. now rewrite Nat.sub_diag.
      * intros j y Hj. apply lookup_app_Some in Hj as [Hj|[_ Hj]].
        -- apply Qlt_le_weak. eapply Qlt_le_trans; eauto.
        -- destruct (j - length pre)%nat; simpl in Hj; [|discriminate].
           injection Hj as <-. apply Qle_refl.
      * intros j y Hj Hy. rewrite lookup_app_l in Hy by lia.
        eapply Qlt_le_trans; eauto.
    + apply Qltb_ge in E.
      replace (S (length pre)) with (length (pre ++ [x]))
        by (rewrite length_app; simpl; lia).
      apply IH.
      * now rewrite lookup_app_l by lia.
      * intros j y Hj. apply lookup_app_Some in Hj as [Hj|[_ Hj]]; [eauto|].
        destruct (j - length pre)%nat; simpl in Hj; [|discriminate].
        now injection Hj as <-.
      * intros j y Hj Hy. rewrite lookup_app_l in Hy by lia. eauto.
Qed.

Lemma argmin_first_min (l : list Q) (i : nat) : argmin l = Ok i -> first_min l i.
Proof.
  destruct l as [|x l]; [discriminate|]. intros H. injection H as <-.
  apply (argmin_from_first_min l [x] 0%nat x).
  - reflexivity.
  - intros [|j] y Hj; simpl in Hj; [|discriminate].
    injection Hj as <-. apply Qle_refl.
  - intros j y Hj. lia.
Qed.

Lemma first_min_bound (l : list Q) (i : nat) : first_min l i -> (i < length l)%nat.
Proof. intros (x & Hx & _). eapply lookup_lt_Some; eauto. Qed.

Lemma argmin_nonempty (l : list Q) : l <> [] -> exists i, argmin l = Ok i.
Proof. destruct l; [congruence|]. simpl. eauto. Qed.

Lemma round_half_even_close (y : Q) :
  (Qabs (inject_Z (round_half_even y) - y) <= 1 # 2)%Q.
Proof.
  pose proof (Qfloor_le y) as Hlo. pose proof (Qlt_floor y) as Hhi.
  rewrite inject_Z_plus in Hhi. change (inject_Z 1) with 1%Q in Hhi.
  apply Qabs_Qle_condition. unfold round_half_even.
  destruct (y - inject_Z (Qfloor y) ?= 1 # 2)%Q eqn:E.
  - apply Qeq_alt in E. destruct (Z.even (Qfloor y));
      rewrite ?inject_Z_plus; change (inject_Z 1) with 1%Q; split; lra.
  - apply Qlt_alt in E. split; lra.
  - apply Qgt_alt in E. rewrite inject_Z_plus. change (inject_Z 1) with 1%Q.
    split; lra.
Qed.

Lemma round2_close (x : Q) : (Qabs (round2 x - x) <= 1 # 200)%Q.
Proof.
  pose proof (round_half_even_close (x * 100)) as H.
  apply Qabs_Qle_condition in H as [H1 H2]. apply Qabs_Qle_condition.
  unfold round2.
  pose proof (Qmake_Qdiv (round_half_even (x * 100)) 100) as Hq.
  change (inject_Z (Z.pos 100)) with (100 # 1)%Q in Hq.
  set (q := (round_half_even (x * 100) # 100)%Q) in *.
  set (n := inject_Z (round_half_even (x * 100))) in *.
  clearbody q n. assert (Hq' : (q * 100 == n)%Q) by (rewrite Hq; field).
  split; lra.
Qed.

End Numeric.

(** ** Records and frames *)

Section Frames.

Implicit Types (d : list (string * json)) (k : string).

Lemma get_Some_key d k v : Dict.get k d = Some v -> k ∈ Dict.keys d.
Proof.
  unfold Dict.get, Dict.keys. induction d as [|[k' v'] d IH]; simpl; [discriminate|].
  destruct (String.eqb k' k) eqn:E.
  - apply String.eqb_eq in E as ->. intros _. apply list_elem_of_here.
  - intros H. apply list_elem_of_further. auto.
Qed.

Lemma uniq_elem (l : list string) : forall seen k,
  k ∈ l -> k ∉ seen -> k ∈ Frame.uniq seen l.
Proof.
  induction l as [|x l IH]; intros seen k Hin Hseen; [inversion Hin|].
  simpl. destruct (decide (x = k)) as [->|Hne].
  - rewrite bool_decide_eq_false_2 by exact Hseen. apply list_elem_of_here.
  - assert (k ∈ l) by (inversion Hin; congruence).
    case_bool_decide.
    + now apply IH.
    + apply list_elem_of_further. apply IH; [assumption|].
      intros Hk. inversion Hk; subst; congruence.
Qed.

Lemma row_lookup (f : string -> option json) (cols : list string) k :
  (snd <$> find (fun kv => String.eqb (fst kv) k) (zip cols (map f cols))) ≫= id =
  if bool_decide (k ∈ cols) then f k else None.
Proof.
  induction cols as [|c cols IH]; [reflexivity|].
  simpl. destruct (String.eqb c k) eqn:E.
  - apply String.eqb_eq in E as ->. simpl.
    rewrite bool_decide_eq_true_2 by apply list_elem_of_here. reflexivity.
  - apply String.eqb_neq in E. rewrite IH.
    destruct (decide (k ∈ cols)) as [Hin|Hin].
    + rewrite !bool_decide_eq_true_2; auto using list_elem_of_further.
    + rewrite !bool_decide_eq_false_2; auto.
      intros H. inversion H; subst; congruence.
Qed.

Lemma records_objects (ds : list (list (string * json))) :
  Frame.records (map JObj ds) = Some ds.
Proof. induction ds as [|d ds IH]; simpl; [reflexivity|]. now rewrite IH. Qed.

Lemma uniq_app (l1 : list string) : forall seen l2,
  Frame.uniq seen (l1 ++ l2) =
  Frame.uniq seen l1 ++ Frame.uniq (rev (Frame.uniq seen l1) ++ seen) l2.
Proof.
  induction l1 as [|x l1 IH]; intros seen l2; [reflexivity|].
  cbn [app Frame.uniq]. case_bool_decide.
  - apply IH.
  - rewrite IH. cbn [rev app]. now rewrite <- app_assoc.
Qed.

Lemma uniq_seen (l seen : list string) :
  (forall k, k ∈ l -> k ∈ seen) -> Frame.uniq seen l = [].
Proof.
  induction l as [|x l IH]; intros H; [reflexivity|].
  cbn [Frame.uniq]. rewrite bool_decide_eq_true_2 by (apply H; apply list_elem_of_here).
  apply IH. intros k Hk. apply H. now apply list_elem_of_further.
Qed.

Lemma uniq_same_keys (ds : list (list (string * json))) :
  ds <> [] ->
  Forall (fun d => Dict.keys d = metadata_keys) ds ->
  Frame.uniq [] (concat (map Dict.keys ds)) = metadata_keys.
Proof.
  intros Hne Hall. destruct ds as [|d ds]; [congruence|].
  apply Forall_cons in Hall as [Hd Hall]. cbn [map concat]. rewrite Hd, uniq_app.
  change (Frame.uniq [] metadata_keys) with metadata_keys.
  rewrite uniq_seen; [apply app_nil_r|].
  intros k Hk. rewrite app_nil_r. apply list_elem_of_In, in_rev.
  rewrite rev_involutive.
  apply list_elem_of_In, in_concat in Hk as (ks & Hks & Hk).
  apply in_map_iff in Hks as (d' & <- & Hd').
  rewrite Forall_forall in Hall. rewrite (Hall d') in Hk; [exact Hk|].
  now apply list_elem_of_In.
Qed.

(** The frame built from records has a row per record. *)
Lemma DataFrame_total (ds : list (list (string * json))) :
  exists t, Frame.DataFrame (map JObj ds) = Ok t /\
    length (rows t) = length ds /\
    columns t = Frame.uniq [] (concat (map Dict.keys ds)).
Proof.
  unfold Frame.DataFrame. rewrite records_objects. eexists. split; [reflexivity|].
  cbn [rows columns]. split; [|reflexivity].
  now rewrite length_map, length_seq.
Qed.

(** Row [i] holds, under a column [k], cell [i] of the typed column. *)
Lemma DataFrame_field (ds : list (list (string * json))) t i k :
  Frame.DataFrame (map JObj ds) = Ok t ->
  (i < length ds)%nat ->
  Frame.field t i k =
  if bool_decide (k ∈ columns t)
  then default None (Frame.convert (map (Dict.get k) ds) !! i)
  else None.
Proof.
  unfold Frame.DataFrame. rewrite records_objects. intros [= <-] Hi.
  unfold Frame.field. cbn [rows columns].
  rewrite list_lookup_fmap, lookup_seq_lt by exact Hi.
  cbn [fmap option_fmap option_map mbind option_bind plus].
  set (cols := Frame.uniq [] _). rewrite map_map.
  pose proof (row_lookup
    (fun c => default None (Frame.convert (map (Dict.get c) ds) !! i)) cols k) as H.
  cbn beta in H. rewrite <- H.
  destruct (find _ _) as [[k' cell]|]; reflexivity.
Qed.

(** ** Columns and their types *)

Lemma existsb_false {A} (f : A -> bool) (l : list A) :
  Forall (fun x => f x = false) l -> existsb f l = false.
Proof. induction 1 as [|x l Hx _ IH]; [reflexivity|]. cbn. now rewrite Hx, IH. Qed.

Lemma existsb_fmap {A B} (f : B -> bool) (g : A -> B) (l : list A) :
  existsb f (map g l) = existsb (fun x => f (g x)) l.
Proof. induction l as [|x l IH]; [reflexivity|]. cbn. now rewrite IH. Qed.

Lemma to_float_floats (col : list (option json)) :
  Forall (fun c => exists q, c = Some (JFloat q)) col -> map Frame.to_float col = col.
Proof.
  induction 1 as [|c col [q ->] _ IH]; [reflexivity|]. cbn. now rewrite IH.
Qed.

(** A column of strings, of integers or of floats is kept as it is. *)
Lemma convert_strings (col : list (option json)) :
  Forall (fun c => Frame.is_object c = true) col -> Frame.convert col = col.
Proof.
  intros H. unfold Frame.convert. destruct H as [|c col Hc H]; [reflexivity|].
  cbn [existsb]. now rewrite Hc.
Qed.

Lemma convert_ints (col : list (option json)) :
  Forall (fun c => Frame.is_int c = true) col -> Frame.convert col = col.
Proof.
  intros H. unfold Frame.convert.
  rewrite (existsb_false Frame.is_object), (existsb_false Frame.is_float),
    (existsb_false Frame.is_null); [now rewrite andb_false_r|..];
    (eapply Forall_impl; [exact H|]); intros [[]|]; cbn; congruence.
Qed.

Lemma convert_floats (col : list (option json)) :
  Forall (fun c => exists q, c = Some (JFloat q)) col -> Frame.convert col = col.
Proof.
  intros H. unfold Frame.convert. rewrite to_float_floats by exact H.
  now repeat destruct (existsb _ _).
Qed.

(** A column of integers and [null] becomes a column of floats when it
    holds both. *)
Lemma convert_ints_and_nulls (col : list (option json)) :
  Forall (fun c => Frame.is_int c || Frame.is_null c = true) col ->
  Frame.convert col =
  if existsb Frame.is_int col && existsb Frame.is_null col
  then map Frame.to_float col else col.
Proof.
  intros H. unfold Frame.convert.
  rewrite (existsb_false Frame.is_object), (existsb_false Frame.is_float);
    [reflexivity|..];
    (eapply Forall_impl; [exact H|]); intros [[]|]; cbn; congruence.
Qed.

(** ** The records of [write] *)

Lemma written_keys d : written_record d -> Dict.keys d = metadata_keys.
Proof. intros (?&?&?&?&?&?&?&?&?&->&_). reflexivity. Qed.

Lemma written_columns (ds : list (list (string * json))) :
  ds <> [] -> Forall written_record ds ->
  Frame.uniq [] (concat (map Dict.keys ds)) = metadata_keys.
Proof.
  intros Hne H. apply uniq_same_keys; [exact Hne|].
  eapply Forall_impl; [exact H|]. apply written_keys.
Qed.

Lemma column_of (P : option json -> Prop) k (ds : list (list (string * json))) :
  (forall d, written_record d -> P (Dict.get k d)) ->
  Forall written_record ds -> Forall P (map (Dict.get k) ds).
Proof. intros HP H. apply Forall_map. eapply Forall_impl; [exact H|]. exact HP. Qed.

Lemma written_absent d k : written_record d -> k ∉ metadata_keys -> Dict.get k d = None.
Proof.
  intros Hd Hk. destruct (Dict.get k d) as [v|] eqn:E; [|reflexivity].
  exfalso. apply Hk. rewrite <- (written_keys d Hd). eapply get_Some_key; eauto.
Qed.

(** The written record of a run of [write], in this form. *)
Lemma metadata_with_written input_path cens_sr mp_window sample_rate cens data
    duration (m : option (Z * Z)) :
  int64 cens_sr -> int64 mp_window -> int64 sample_rate ->
  int64 (Z.of_nat (shape1 cens)) -> int64 (Z.of_nat (length data)) ->
  (forall a b, m = Some (a, b) -> (Z.abs a <= 2 ^ 53)%Z /\ (Z.abs b <= 2 ^ 53)%Z) ->
  written_record
    (metadata_with input_path cens_sr mp_window sample_rate cens data duration m).
Proof.
  intros H1 H2 H3 H4 H5 Hm. unfold written_record, motif_value.
  destruct m as [[a b]|].
  - destruct (Hm a b eq_refl) as [Ha Hb]. do 9 eexists.
    split; [reflexivity|]. do 5 (split; [assumption|]).
    split; right; eexists; (split; [reflexivity|assumption]).
  - do 9 eexists. split; [reflexivity|]. do 5 (split; [assumption|]).
    split; left; reflexivity.
Qed.

End Frames.

(** ** The table of the records of [write] *)

Section Typing.

Implicit Types (d : list (string * json)) (k : string)
  (ds : list (list (string * json))).

Lemma never_null k ds :
  Forall (fun d => Frame.is_null (Dict.get k d) = false) ds ->
  mixes_int_and_null k ds = false.
Proof.
  intros H. unfold mixes_int_and_null.
  rewrite (existsb_false (fun d => Frame.is_null (Dict.get k d))) by exact H.
  apply andb_false_r.
Qed.

Lemma cell_kept k ds i d :
  ds !! i = Some d ->
  default None (map (Dict.get k) ds !! i) = Dict.get k d.
Proof. intros Hi. now rewrite list_lookup_fmap, Hi. Qed.

Lemma cell_as_float k ds i d :
  ds !! i = Some d ->
  default None (map Frame.to_float (map (Dict.get k) ds) !! i) =
  Frame.to_float (Dict.get k d).
Proof. intros Hi. now rewrite !list_lookup_fmap, Hi. Qed.

Ltac record d :=
  let H := fresh in
  intros d H; destruct H as (?&?&?&?&?&?&?&?&?&->&_&_&_&_&_&Hm0&Hm1).

Lemma written_field ds t i d k :
  Forall written_record ds ->
  Frame.DataFrame (map JObj ds) = Ok t ->
  ds !! i = Some d ->
  Frame.field t i k =
  if mixes_int_and_null k ds then Frame.to_float (Dict.get k d) else Dict.get k d.
Proof.
  intros Hall Ht Hi.
  assert (i < length ds)%nat as Hlt by (eapply lookup_lt_Some; eauto).
  assert (ds <> []) as Hne by (intros ->; inversion Hi).
  rewrite (DataFrame_field ds t i k Ht Hlt).
  destruct (DataFrame_total ds) as (t' & Ht' & _ & Hcols).
  assert (t' = t) as -> by congruence.
  rewrite Hcols, (written_columns ds Hne Hall).
  case_bool_decide as Hk.
  - unfold metadata_keys in Hk.
    repeat (apply elem_of_cons in Hk as [->|Hk]); [..|inversion Hk].
    + rewrite convert_strings, never_null, (cell_kept _ _ _ _ Hi); [reflexivity|..];
        [eapply Forall_impl; [exact Hall|]|apply column_of; [|exact Hall]];
        record d'; reflexivity.
    + rewrite convert_ints, never_null, (cell_kept _ _ _ _ Hi); [reflexivity|..];
        [eapply Forall_impl; [exact Hall|]|apply column_of; [|exact Hall]];
        record d'; reflexivity.
    + rewrite convert_ints, never_null, (cell_kept _ _ _ _ Hi); [reflexivity|..];
        [eapply Forall_impl; [exact Hall|]|apply column_of; [|exact Hall]];
        record d'; reflexivity.
    + rewrite convert_ints, never_null, (cell_kept _ _ _ _ Hi); [reflexivity|..];
        [eapply Forall_impl; [exact Hall|]|apply column_of; [|exact Hall]];
        record d'; reflexivity.
    + rewrite convert_ints, never_null, (cell_kept _ _ _ _ Hi); [reflexivity|..];
        [eapply Forall_impl; [exact Hall|]|apply column_of; [|exact Hall]];
        record d'; reflexivity.
    + rewrite convert_ints, never_null, (cell_kept _ _ _ _ Hi); [reflexivity|..];
        [eapply Forall_impl; [exact Hall|]|apply column_of; [|exact Hall]];
        record d'; reflexivity.
    + rewrite convert_floats, never_null, (cell_kept _ _ _ _ Hi); [reflexivity|..];
        [eapply Forall_impl; [exact Hall|]|apply column_of; [|exact Hall]];
        record d'; [reflexivity|eexists; reflexivity].
    + rewrite convert_ints_and_nulls, !existsb_fmap.
      * unfold mixes_int_and_null. destruct (_ && _).
        -- now apply cell_as_float.
        -- now apply cell_kept.
      * apply column_of; [|exact Hall]. record d'.
        destruct Hm0 as [->|(n & -> & _)]; reflexivity.
    + rewrite convert_ints_and_nulls, !existsb_fmap.
      * unfold mixes_int_and_null. destruct (_ && _).
        -- now apply cell_as_float.
        -- now apply cell_kept.
      * apply column_of; [|exact Hall]. record d'.
        destruct Hm1 as [->|(n & -> & _)]; reflexivity.
  - rewrite (written_absent d k); [|rewrite Forall_forall in Hall; apply Hall;
      eapply list_elem_of_lookup_2; eauto|exact Hk].
    rewrite never_null; [reflexivity|].
    eapply Forall_impl; [exact Hall|]. intros d' Hd'. cbn beta.
    now rewrite (written_absent d' k).
Qed.


Lemma written_not_null d k :
  written_record d -> k <> "motif_0" -> k <> "motif_1" ->
  Frame.is_null (Dict.get k d) = false.
Proof.
  intros Hd H0 H1. destruct (decide (k ∈ metadata_keys)) as [Hk|Hk].
  - revert d Hd. unfold metadata_keys in Hk.
    repeat (apply elem_of_cons in Hk as [->|Hk]); [..|inversion Hk];
      try congruence; record d; reflexivity.
  - now rewrite (written_absent d k).
Qed.

Lemma mixes_only_motifs ds k :
  Forall written_record ds -> k <> "motif_0" -> k <> "motif_1" ->
  mixes_int_and_null k ds = false.
Proof.
  intros Hall H0 H1. apply never_null. eapply Forall_impl; [exact Hall|].
  intros d Hd. now apply written_not_null.
Qed.

End Typing.

(** ** Runs of the commands *)

Section Commands.

Context (ROOT : list string) (st : state).

Lemma read_all_json (files : list (list string)) (ds : list (list (string * json))) :
  Forall2 (fun f d => FS.get f (fs st) = Ok (Text (JObj d))) files ds ->
  starmap _read_json files st = (Ok (map JObj ds), st).
Proof.
  unfold starmap. induction 1 as [|f d files ds Hf _ IH]; [reflexivity|].
  cbn [mapM map]. unfold bind at 1. unfold _read_json at 1, bind, read_file.
  rewrite Hf. unfold ret at 1. unfold bind. rewrite IH. reflexivity.
Qed.

Lemma put_anywhere (fs0 : gmap (list string) node) (p : list string) (c : content) :
  FS.is_dir fs0 (removelast p) = true -> FS.is_dir fs0 p = false ->
  FS.put p c fs0 = Ok (<[p := File c]> fs0).
Proof.
  intros Hp Hx. unfold FS.put. rewrite Hp. simpl.
  unfold FS.is_dir in Hx. destruct (FS.node_at fs0 p) as [[|]|]; congruence.
Qed.

Lemma consolidate_no_files (input output : string) :
  FS.rglob (String.eqb "metadata.json")
    (ROOT // ("data/intermediate/" +:+ input)) (fs st) = [] ->
  consolidate ROOT input output st = (Raise (ValueError "no files found"), st).
Proof.
  intros H. unfold consolidate, bind, read. now rewrite H.
Qed.

Lemma extract_files_no_files (C : collaborators) (rel_root src dst : list string) :
  FS.rglob (FS.ends_with ".ogg") src (fs st) = [] ->
  extract_files C rel_root src dst st = (Raise (ValueError "no files found"), st).
Proof.
  intros H. unfold extract_files, bind, read. now rewrite H.
Qed.

Lemma extract_raises (C : collaborators) (species : option string) (dataset : string) :
  extract C ROOT species dataset st =
  (Raise (Exn "NameError" "name 'output' is not defined"), st).
Proof. reflexivity. Qed.

Lemma consolidate_records (input output : string)
    (ds : list (list (string * json))) :
  let src := ROOT // ("data/intermediate/" +:+ input) in
  let dst := ROOT // ("data/intermediate/" +:+ output +:+ ".parquet") in
  let files := FS.rglob (String.eqb "metadata.json") src (fs st) in
  files <> [] ->
  Forall2 (fun f d => FS.get f (fs st) = Ok (Text (JObj d))) files ds ->
  FS.is_dir (fs st) (removelast dst) = true ->
  FS.is_dir (fs st) dst = false ->
  exists t,
    Frame.DataFrame (map JObj ds) = Ok t /\
    consolidate ROOT input output st =
    (Ok tt, State (<[dst := File (Parquet t)]> (fs st))
                  (trace st ++ [EvPrint (Frame.head t); EvWrite dst (Parquet t)])).
Proof.
  intros src dst files Hne Hread Hparent Hdst.
  destruct (DataFrame_total ds) as (t & Ht & _).
  exists t. split; [exact Ht|].
  unfold consolidate. fold src dst. unfold bind at 1. unfold read. fold files.
  destruct files as [|f fl] eqn:Ef; [congruence|].
  unfold bind at 1. rewrite (read_all_json _ _ Hread).
  unfold bind, lift, log, write_file, change. rewrite Ht. cbn [fs trace].
  rewrite put_anywhere by assumption. now rewrite <- app_assoc.
Qed.

End Commands.

(** ** Names of folders *)

Section Names.

Lemma prefix_empty (s : string) : String.prefix EmptyString s = true.
Proof. now destruct s. Qed.

Lemma split_on_plain (s : string) :
  Str.occurs "/" s = false -> Path.split_on "/" s = [s].
Proof.
  induction s as [|d s IH]; [reflexivity|].
  change (Str.occurs "/" (String d s))
    with (String.prefix "/" (String d s) || Str.occurs "/" s).
  rewrite prefix_cons, prefix_empty. intros H.
  apply orb_false_elim in H as [Hd Hs].
  cbn [Path.split_on]. destruct (ascii_dec "/" d) as [|Hne]; [discriminate|].
  destruct (Ascii.eqb d "/") eqn:E; [apply Ascii.eqb_eq in E; congruence|].
  now rewrite (IH Hs).
Qed.


End Names.

(** ** A second run of [write] *)

Section SecondRun.

Context (C : collaborators) (input_path output_path : list string)
        (cens_sr mp_window : Z) (st : state).

Local Abbreviation path := (recording_dir input_path output_path).

Hypothesis relative : String.prefix "/" (recording_name input_path) = false.

Lemma node_at_file (fs0 : gmap (list string) node) (p : list string) (x : string) :
  String.eqb x "/" = false -> FS.node_at fs0 (p ++ [x]) = fs0 !! (p ++ [x]).
Proof.
  intros H. destruct p as [|c [|c' p]]; simpl; [now rewrite H|reflexivity..].
Qed.

Lemma exists_inserted (fs0 : gmap (list string) node) (p : list string) (x : string) n :
  String.eqb x "/" = false -> FS.exists_ (<[p ++ [x] := n]> fs0) (p ++ [x]) = true.
Proof.
  intros H. unfold FS.exists_. rewrite node_at_file by exact H.
  now rewrite lookup_insert_eq.
Qed.

Lemma exists_insert_ne (fs0 : gmap (list string) node) (p q : list string) n :
  p <> q -> FS.exists_ (<[q := n]> fs0) p = FS.exists_ fs0 p.
Proof. intros. unfold FS.exists_. now rewrite node_at_insert_ne. Qed.

Lemma is_dir_exists (fs0 : gmap (list string) node) (p : list string) :
  FS.is_dir fs0 p = true -> FS.exists_ fs0 p = true.
Proof. unfold FS.is_dir, FS.exists_. now destruct (FS.node_at fs0 p). Qed.

Lemma output_is_dir (fs1 : gmap (list string) node) :
  FS.mkdir path (fs st) = Ok fs1 -> FS.is_dir fs1 output_path = true.
Proof.
  intros H. destruct (decide (output_path = [])) as [->|Hne]; [reflexivity|].
  eapply mkdirs_makes_dirs; [exact H|].
  unfold recording_dir, Path.div. rewrite relative.
  unfold Path.ancestors_and_self. apply in_map_iff.
  exists (length output_path). split.
  - now rewrite take_app_length.
  - apply in_seq. rewrite length_app.
    destruct output_path; [congruence|]. simpl. lia.
Qed.

Lemma output_shorter (x : string) : output_path <> path ++ [x].
Proof.
  unfold recording_dir, Path.div. rewrite relative. intros H.
  apply (f_equal (@length _)) in H. rewrite !length_app in H. simpl in H. lia.
Qed.

(** After a full run the outputs are found and nothing is computed. *)
Lemma write_long_then_skips data sr hop cens fs1 mp pi motif pi_motif :
  prepared C input_path output_path cens_sr st data sr hop cens fs1 ->
  Qltb (get_duration C data sr) 5 = false ->
  simple_fast C cens cens mp_window = Ok (mp, pi) ->
  argmin mp = Ok motif ->
  pi !! motif = Some pi_motif ->
  writable (fs st) path outputs = true ->
  let st1 := snd (write C input_path output_path cens_sr mp_window st) in
  write C input_path output_path cens_sr mp_window st1 = (Ok tt, st1).
Proof.
  intros H Hd Hsf Harg Hpi Hw st1. pose proof H as (_ & _ & _ & _ & _ & Hmk).
  unfold st1. rewrite (write_long _ _ _ _ _ _ _ _ _ _ _ _ _ _ _ H Hd Hsf Harg Hpi Hw).
  cbn [snd].
  pose proof (mkdir_is_dir _ _ _ Hmk) as Hp.
  apply write_skips; cbn [fs].
  - unfold output_blocked. rewrite !is_dir_insert_ne by apply output_shorter.
    rewrite (output_is_dir _ Hmk). apply andb_false_r.
  - unfold already_complete, outputs. cbn [forallb].
    rewrite div_metadata, div_mp, div_pi.
    assert (FS.is_dir
              (<[path ++ ["pi.npy"] := File (NpyInt pi)]>
                 (<[path ++ ["mp.npy"] := File (NpyFloat mp)]>
                    (<[path ++ ["metadata.json"] := File
                        (Text (JObj (metadata_with input_path cens_sr mp_window sr cens
                           data (get_duration C data sr)
                           (Some (Z.of_nat motif, pi_motif)))))]> fs1))) path = true)
      as Hdir by (rewrite !is_dir_insert_ne; [exact Hp | apply app_single_ne_self ..]).
    rewrite Hdir, (is_dir_exists _ _ Hdir).
    rewrite exists_inserted by reflexivity.
    rewrite (exists_insert_ne _ (path ++ ["mp.npy"])) by now apply app_single_ne.
    rewrite exists_inserted by reflexivity.
    rewrite !(exists_insert_ne _ (path ++ ["metadata.json"])) by now apply app_single_ne.
    rewrite exists_inserted by reflexivity.
    reflexivity.
Qed.

(** A run that is neither refused nor skipped loads the audio. *)
Lemma write_loads (s : state) :
  output_blocked (fs s) output_path = false ->
  already_complete (fs s) path = false ->
  exists evs,
    trace (snd (write C input_path output_path cens_sr mp_window s)) =
    trace s ++ EvLoad input_path :: evs.
Proof.
  intros Hb Hc.
  unfold write, load, read_file, mkdir, write_file, change, lift, log, read,
    raise, ret, bind, getitem.
  unfold output_blocked in Hb; rewrite Hb.
  unfold already_complete, recording_dir, recording_name in Hc; rewrite Hc.
  cbn [fs trace].
  repeat (case_match; cbn [fs trace snd] in *); simplify_eq; cbn [fs trace snd];
    rewrite <- ?app_assoc; cbn [app]; eexists; reflexivity.
Qed.

(** After a run on a short recording the outputs are not all found,
    and the next run loads the audio again. *)
Lemma write_short_then_reloads data sr hop cens fs1 :
  prepared C input_path output_path cens_sr st data sr hop cens fs1 ->
  Qltb (get_duration C data sr) 5 = true ->
  FS.is_dir (fs st) (path // "metadata.json") = false ->
  FS.exists_ (fs st) (path // "mp.npy") = false ->
  let st1 := snd (write C input_path output_path cens_sr mp_window st) in
  exists evs,
    trace (snd (write C input_path output_path cens_sr mp_window st1)) =
    trace st1 ++ EvLoad input_path :: evs.
Proof.
  intros H Hd Hw Hmp st1. pose proof H as (_ & _ & _ & _ & _ & Hmk).
  unfold st1. rewrite (write_short _ _ _ _ _ _ _ _ _ _ _ H Hd Hw).
  cbn [snd]. apply write_loads; cbn [fs].
  - unfold output_blocked. rewrite !is_dir_insert_ne by apply output_shorter.
    rewrite (output_is_dir _ Hmk). apply andb_false_r.
  - unfold already_complete, outputs. cbn [forallb].
    rewrite div_metadata, div_mp in *.
    rewrite (exists_insert_ne _ (path ++ ["mp.npy"])) by now apply app_single_ne.
    assert (FS.exists_ fs1 (path ++ ["mp.npy"]) = false) as ->
      by (unfold FS.exists_ in *; now rewrite (mkdir_below _ _ _ _ Hmk)).
    now rewrite andb_false_l, !andb_false_r.
Qed.

End SecondRun.

(** ** Reading back what was written *)

Section ReadBack.

Implicit Types (m : gmap (list string) node) (p q : list string).

Lemma get_inserted m p c :
  FS.is_dir m p = false -> FS.get p (<[p := File c]> m) = Ok c.
Proof.
  intros H. unfold FS.get. unfold FS.is_dir in H.
  destruct p as [|x [|y p]]; simpl in *; try discriminate.
  - destruct (String.eqb x "/"); [discriminate|]. now rewrite lookup_insert_eq.
  - now rewrite lookup_insert_eq.
Qed.

Lemma get_insert_ne m p q n : p <> q -> FS.get p (<[q := n]> m) = FS.get p m.
Proof. intros. unfold FS.get. now rewrite node_at_insert_ne. Qed.

Lemma new_events_app (st st' : state) (evs : list event) :
  trace st' = trace st ++ evs -> new_events st st' = evs.
Proof. intros H. unfold new_events. rewrite H. apply drop_app_length. Qed.

Lemma mkdir_keeps_files m m1 p x :
  FS.mkdir p m = Ok m1 ->
  FS.is_dir m (p ++ [x]) = false -> FS.is_dir m1 (p ++ [x]) = false.
Proof. intros H. unfold FS.is_dir. now rewrite (mkdir_below _ _ _ _ H). Qed.

End ReadBack.

(** What any run of [write] writes besides text: the two arrays. *)
Lemma write_trace_arrays C input_path output_path cens_sr mp_window st r st' :
  write C input_path output_path cens_sr mp_window st = (r, st') ->
  exists evs, trace st' = trace st ++ evs /\
    forall p c, In (EvWrite p c) evs ->
      (exists j, c = Text j) \/
      p = recording_dir input_path output_path ++ ["mp.npy"] \/
      p = recording_dir input_path output_path ++ ["pi.npy"].
Proof.
  unfold write, load, read_file, mkdir, write_file, change, lift, log, read,
    raise, ret, bind, getitem.
  rewrite div_mp, div_pi. fold (recording_name input_path).
  fold (recording_dir input_path output_path).
  cbn [fs trace]. intros H.
  repeat (let E := fresh "E" in case_match eqn:E; cbn [fs trace] in *);
    simplify_eq; cbn [fs trace];
    rewrite <- ?app_assoc; cbn [app];
    (eexists; split; [first [reflexivity | symmetry; apply app_nil_r] |]);
    intros p c Hin; cbn [In] in Hin; intuition (try discriminate); simplify_eq;
    eauto.
Qed.

(** ** Examples *)

Example recording_name_ogg :
  recording_name ["train_audio"; "afrsil1"; "XC125458.ogg"] = "XC125458".
Proof. reflexivity. Qed.

Example recording_name_first_ogg :
  recording_name ["train_audio"; "afrsil1"; "a.ogg.bak.ogg"] = "a".
Proof. reflexivity. Qed.

Example recording_dir_of_dot_ogg : recording_dir ["clips"; ".ogg"] ["out"] = ["out"].
Proof. reflexivity. Qed.

Example div_text : ["repo"] // "data/intermediate/motif" = ["repo"; "data"; "intermediate"; "motif"].
Proof. reflexivity. Qed.

Example round2_tie_to_even_down : round2 (1 # 8) = (12 # 100)%Q.
Proof. reflexivity. Qed.

Example round2_tie_to_even_up : round2 (3 # 8) = (38 # 100)%Q.
Proof. reflexivity. Qed.

Example argmin_first_of_ties : argmin [3 # 1; 1 # 1; 2 # 1; 1 # 1]%Q = Ok 1%nat.
Proof. reflexivity. Qed.

Example argmin_empty :
  argmin [] = Raise (ValueError "attempt to get argmin of an empty sequence").
Proof. reflexivity. Qed.

Example update_keeps_order :
  Dict.keys (Dict.update [("a", JNull); ("b", JNull)] [("a", JInt 1); ("c", JInt 2)]) =
  ["a"; "b"; "c"].
Proof. reflexivity. Qed.

Example glob_finds_clips :
  FS.rglob (FS.ends_with ".ogg") (extract_src Fixture.ROOT None) Fixture.disk =
  [Fixture.long_ogg; Fixture.short_ogg].
Proof. vm_compute. reflexivity. Qed.

Example mkdir_under_file :
  FS.mkdir ["notes.txt"; "XC1"] Fixture.disk =
  Raise (Exn "NotADirectoryError" "notes.txt").
Proof. vm_compute. reflexivity. Qed.

(** ** The claims *)

(** C6. [write] raises when the output path exists and is not a
    directory, and it does so first: the state it hands back is the one
    it was given, with no file touched and no call to the audio loader,
    the feature extractor or the locator in the trace. *)
Theorem write_rejects_file_as_output
    (C : collaborators) (input_path output_path : list string)
    (cens_sr mp_window : Z) (st : state) :
  FS.exists_ (fs st) output_path = true ->
  FS.is_dir (fs st) output_path = false ->
  write C input_path output_path cens_sr mp_window st =
  (Raise (ValueError "output_path should be a folder"), st).
Proof.
  intros He Hd. apply write_blocked. unfold output_blocked. now rewrite He, Hd.
Qed.

Lemma write_rejects_file_as_output_witness :
  write Fixture.C Fixture.long_ogg ["notes.txt"] 10 50 Fixture.start =
  (Raise (ValueError "output_path should be a folder"), Fixture.start).
Proof.
  apply (write_rejects_file_as_output Fixture.C Fixture.long_ogg ["notes.txt"] 10 50
           Fixture.start); reflexivity.
Defined.

(** C1. A recording shorter than five seconds: [write] returns, never
    calls the locator, leaves a record whose [motif_0] and [motif_1] are
    null, and writes no file but [metadata.json]. A recording of five
    seconds or more, with a window the locator accepts (it returns a
    profile that is not empty and an index at least as long): [write]
    returns, both arrays are written and stored, and [motif_0] and
    [motif_1] of the record are integers. *)
Theorem write_short_and_long_recordings
    (C : collaborators) (input_path output_path : list string)
    (cens_sr mp_window : Z) (st : state)
    (data : list Q) (sr hop : Z) (cens : array2) (fs1 : gmap (list string) node) :
  prepared C input_path output_path cens_sr st data sr hop cens fs1 ->
  let path := recording_dir input_path output_path in
  let duration := get_duration C data sr in
  ((duration < 5)%Q ->
   FS.is_dir (fs st) (path // "metadata.json") = false ->
   exists st' md,
     write C input_path output_path cens_sr mp_window st = (Ok tt, st') /\
     (forall w, ~ In (EvSimpleFast w) (new_events st st')) /\
     FS.get (path // "metadata.json") (fs st') = Ok (Text (JObj md)) /\
     Dict.get "motif_0" md = Some JNull /\
     Dict.get "motif_1" md = Some JNull /\
     (forall p c, In (EvWrite p c) (new_events st st') ->
                  p = path // "metadata.json")) /\
  ((5 <= duration)%Q ->
   forall mp pi,
     simple_fast C cens cens mp_window = Ok (mp, pi) ->
     mp <> [] -> (length mp <= length pi)%nat ->
     writable (fs st) path outputs = true ->
     exists st' md m0 m1,
       write C input_path output_path cens_sr mp_window st = (Ok tt, st') /\
       In (EvWrite (path // "mp.npy") (NpyFloat mp)) (new_events st st') /\
       In (EvWrite (path // "pi.npy") (NpyInt pi)) (new_events st st') /\
       FS.get (path // "mp.npy") (fs st') = Ok (NpyFloat mp) /\
       FS.get (path // "pi.npy") (fs st') = Ok (NpyInt pi) /\
       FS.get (path // "metadata.json") (fs st') = Ok (Text (JObj md)) /\
       Dict.get "motif_0" md = Some (JInt m0) /\
       Dict.get "motif_1" md = Some (JInt m1)).
Proof.
  intros H path duration. pose proof H as (_ & _ & _ & _ & _ & Hmk). split.
  - intros Hd Hw. apply Qltb_lt in Hd.
    pose proof (write_short C input_path output_path cens_sr mp_window st
                  data sr hop cens fs1 H Hd Hw) as Hrun.
    fold path duration in Hrun. rewrite div_metadata in *.
    eexists. eexists. split; [exact Hrun|].
    unfold new_events. cbn [fs trace]. rewrite drop_app_length.
    split; [|split; [|split; [|split]]].
    + intros w Hin. cbn [In] in Hin. intuition discriminate.
    + apply get_inserted. eapply mkdir_keeps_files; eauto.
    + reflexivity.
    + reflexivity.
    + intros p c Hin. cbn [In] in Hin. intuition (try discriminate). congruence.
  - intros Hd mp pi Hsf Hmp Hlen Hw. apply Qltb_ge in Hd.
    destruct (argmin_nonempty mp Hmp) as (i & Hi).
    pose proof (first_min_bound _ _ (argmin_first_min _ _ Hi)) as Hbound.
    destruct (lookup_lt_is_Some_2 pi i ltac:(lia)) as (m1 & Hm1).
    pose proof (write_long C input_path output_path cens_sr mp_window st
                  data sr hop cens fs1 mp pi i m1 H Hd Hsf Hi Hm1 Hw) as Hrun.
    fold path duration in Hrun. cbv zeta in Hrun.
    apply writable_outputs in Hw as (Hw0 & Hw1 & Hw2). fold path in Hw0, Hw1, Hw2.
    rewrite div_metadata, div_mp, div_pi.
    eexists. eexists. exists (Z.of_nat i), m1. split; [exact Hrun|].
    unfold new_events. cbn [fs trace]. rewrite drop_app_length.
    split; [|split; [|split; [|split; [|split; [|split]]]]].
    + cbn [In]. auto 10.
    + cbn [In]. auto 10.
    + rewrite get_insert_ne by now apply app_single_ne.
      apply get_inserted. rewrite is_dir_insert_ne by now apply app_single_ne.
      eapply mkdir_keeps_files; eauto.
    + apply get_inserted. rewrite !is_dir_insert_ne by now apply app_single_ne.
      eapply mkdir_keeps_files; eauto.
    + rewrite !get_insert_ne by now apply app_single_ne.
      apply get_inserted. eapply mkdir_keeps_files; eauto.
    + reflexivity.
    + reflexivity.
Qed.

Ltac fixture_prepared :=
  unfold prepared;
  split; [reflexivity|];
  split; [reflexivity|];
  split; [eexists; split; reflexivity|];
  split; [reflexivity|];
  split; reflexivity.

Lemma write_short_and_long_recordings_witness :
  (exists st' md,
     write Fixture.C Fixture.short_ogg Fixture.out 10 10 Fixture.start = (Ok tt, st') /\
     (forall w, ~ In (EvSimpleFast w) (new_events Fixture.start st')) /\
     FS.get (recording_dir Fixture.short_ogg Fixture.out // "metadata.json") (fs st') =
       Ok (Text (JObj md)) /\
     Dict.get "motif_0" md = Some JNull /\
     Dict.get "motif_1" md = Some JNull /\
     (forall p c, In (EvWrite p c) (new_events Fixture.start st') ->
                  p = recording_dir Fixture.short_ogg Fixture.out // "metadata.json")) /\
  (exists st' md m0 m1,
     write Fixture.C Fixture.long_ogg Fixture.out 10 10 Fixture.start = (Ok tt, st') /\
     In (EvWrite (recording_dir Fixture.long_ogg Fixture.out // "mp.npy")
           (NpyFloat (fst (Fixture.profile 52 10)))) (new_events Fixture.start st') /\
     In (EvWrite (recording_dir Fixture.long_ogg Fixture.out // "pi.npy")
           (NpyInt (snd (Fixture.profile 52 10)))) (new_events Fixture.start st') /\
     FS.get (recording_dir Fixture.long_ogg Fixture.out // "mp.npy") (fs st') =
       Ok (NpyFloat (fst (Fixture.profile 52 10))) /\
     FS.get (recording_dir Fixture.long_ogg Fixture.out // "pi.npy") (fs st') =
       Ok (NpyInt (snd (Fixture.profile 52 10))) /\
     FS.get (recording_dir Fixture.long_ogg Fixture.out // "metadata.json") (fs st') =
       Ok (Text (JObj md)) /\
     Dict.get "motif_0" md = Some (JInt m0) /\
     Dict.get "motif_1" md = Some (JInt m1)).
Proof.
  split.
  - eapply (write_short_and_long_recordings Fixture.C Fixture.short_ogg Fixture.out
              10 10 Fixture.start).
    + fixture_prepared.
    + reflexivity.
    + reflexivity.
  - eapply (write_short_and_long_recordings Fixture.C Fixture.long_ogg Fixture.out
              10 10 Fixture.start).
    + fixture_prepared.
    + discriminate.
    + reflexivity.
    + discriminate.
    + simpl. lia.
    + reflexivity.
Defined.

(** C2. When the locator returns the profile [mp] and the index [pi],
    the record on disk has [motif_0] at the position where the least
    value of [mp] first occurs, and [motif_1 = pi[motif_0]]. *)
Theorem motif_pair_is_first_argmin
    (C : collaborators) (input_path output_path : list string)
    (cens_sr mp_window : Z) (st : state)
    (data : list Q) (sr hop : Z) (cens : array2) (fs1 : gmap (list string) node)
    (mp : list Q) (pi : list Z) :
  prepared C input_path output_path cens_sr st data sr hop cens fs1 ->
  (5 <= get_duration C data sr)%Q ->
  simple_fast C cens cens mp_window = Ok (mp, pi) ->
  mp <> [] -> (length mp <= length pi)%nat ->
  writable (fs st) (recording_dir input_path output_path) outputs = true ->
  exists st' md motif_0 motif_1,
    write C input_path output_path cens_sr mp_window st = (Ok tt, st') /\
    FS.get (recording_dir input_path output_path // "metadata.json") (fs st') =
      Ok (Text (JObj md)) /\
    Dict.get "motif_0" md = Some (JInt (Z.of_nat motif_0)) /\
    Dict.get "motif_1" md = Some (JInt motif_1) /\
    first_min mp motif_0 /\
    pi !! motif_0 = Some motif_1.
Proof.
  intros H Hd Hsf Hmp Hlen Hw. pose proof H as (_ & _ & _ & _ & _ & Hmk).
  apply Qltb_ge in Hd.
  destruct (argmin_nonempty mp Hmp) as (i & Hi).
  pose proof (argmin_first_min _ _ Hi) as Hfirst.
  pose proof (first_min_bound _ _ Hfirst) as Hbound.
  destruct (lookup_lt_is_Some_2 pi i ltac:(lia)) as (m1 & Hm1).
  pose proof (write_long C input_path output_path cens_sr mp_window st
                data sr hop cens fs1 mp pi i m1 H Hd Hsf Hi Hm1 Hw) as Hrun.
  cbv zeta in Hrun.
  apply writable_outputs in Hw as (Hw0 & Hw1 & Hw2).
  rewrite div_metadata.
  eexists. eexists. exists i, m1. split; [exact Hrun|]. cbn [fs].
  split.
  { rewrite !get_insert_ne by now apply app_single_ne.
    apply get_inserted. eapply mkdir_keeps_files; eauto. }
  split; [reflexivity|]. split; [reflexivity|]. split; assumption.
Qed.

Lemma motif_pair_is_first_argmin_witness :
  exists st' md motif_0 motif_1,
    write Fixture.C Fixture.long_ogg Fixture.out 10 10 Fixture.start = (Ok tt, st') /\
    FS.get (recording_dir Fixture.long_ogg Fixture.out // "metadata.json") (fs st') =
      Ok (Text (JObj md)) /\
    Dict.get "motif_0" md = Some (JInt (Z.of_nat motif_0)) /\
    Dict.get "motif_1" md = Some (JInt motif_1) /\
    first_min (fst (Fixture.profile 52 10)) motif_0 /\
    snd (Fixture.profile 52 10) !! motif_0 = Some motif_1.
Proof.
  eapply (motif_pair_is_first_argmin Fixture.C Fixture.long_ogg Fixture.out
            10 10 Fixture.start).
  - fixture_prepared.
  - discriminate.
  - reflexivity.
  - discriminate.
  - simpl. lia.
  - reflexivity.
Defined.

(** C5. Whatever [write] puts into a [metadata.json] is a JSON object
    with exactly the nine keys of the record; its [duration_seconds] is
    a number of hundredths within half a hundredth of the duration of
    the audio, the value of [round(duration, 2)]; its [motif_0] and
    [motif_1] are each an integer or null. *)
Theorem metadata_json_shape
    (C : collaborators) (input_path output_path : list string)
    (cens_sr mp_window : Z) (st st' : state) (r : result unit) (c : content) :
  write C input_path output_path cens_sr mp_window st = (r, st') ->
  In (EvWrite (recording_dir input_path output_path // "metadata.json") c)
     (new_events st st') ->
  exists md,
    c = Text (JObj md) /\
    Dict.keys md = metadata_keys /\
    (exists clip data sr n,
       FS.get input_path (fs st) = Ok clip /\
       librosa_load C clip = Ok (data, sr) /\
       round2 (get_duration C data sr) = (n # 100)%Q /\
       Dict.get "duration_seconds" md = Some (JFloat (n # 100)) /\
       (Qabs ((n # 100) - get_duration C data sr) <= 1 # 200)%Q) /\
    is_int_or_null (Dict.get "motif_0" md) /\
    is_int_or_null (Dict.get "motif_1" md).
Proof.
  intros Hrun Hin. rewrite div_metadata in Hin.
  destruct (write_trace_arrays _ _ _ _ _ _ _ _ Hrun) as (evs & Hevs & Harr).
  destruct (write_trace _ _ _ _ _ _ _ _ Hrun) as (evs' & Hevs' & Htext).
  rewrite (new_events_app _ _ _ Hevs) in Hin.
  assert (evs' = evs) as -> by (rewrite Hevs in Hevs'; eapply app_inv_head; eauto).
  destruct (Harr _ _ Hin) as [(j & ->)|[Hp|Hp]];
    [|apply app_inv_head in Hp; discriminate ..].
  destruct (Htext _ _ Hin) as (_ & clip & data & sr & hop & cens & m & Hget & Hload
                               & _ & _ & -> & _).
  eexists. split; [reflexivity|].
  split; [now destruct m|]. split; [|split].
  - exists clip, data, sr, (round_half_even (get_duration C data sr * 100)).
    repeat split; try assumption; [now destruct m|]. apply round2_close.
  - destruct m as [[a b]|]; [right; now exists a | now left].
  - destruct m as [[a b]|]; [right; now exists b | now left].
Qed.

Lemma metadata_json_shape_witness :
  exists md,
    Text (JObj (metadata_with Fixture.short_ogg 10 10 10 (Array2 12 50 [])
                  (repeat (0 # 1)%Q 49) (49 # 10)%Q None)) = Text (JObj md) /\
    Dict.keys md = metadata_keys /\
    (exists clip data sr n,
       FS.get Fixture.short_ogg (fs Fixture.start) = Ok clip /\
       librosa_load Fixture.C clip = Ok (data, sr) /\
       round2 (get_duration Fixture.C data sr) = (n # 100)%Q /\
       Dict.get "duration_seconds" md = Some (JFloat (n # 100)) /\
       (Qabs ((n # 100) - get_duration Fixture.C data sr) <= 1 # 200)%Q) /\
    is_int_or_null (Dict.get "motif_0" md) /\
    is_int_or_null (Dict.get "motif_1" md).
Proof.
  eapply (metadata_json_shape Fixture.C Fixture.short_ogg Fixture.out 10 10
            Fixture.start
            (snd (write Fixture.C Fixture.short_ogg Fixture.out 10 10 Fixture.start))
            (Ok tt)).
  - reflexivity.
  - vm_compute. right. right. right. left. reflexivity.
Defined.

(** C10. In whatever [write] puts into a [metadata.json], [motif_0]
    and [motif_1] are both null or both integers. *)
Theorem motif_fields_null_together
    (C : collaborators) (input_path output_path : list string)
    (cens_sr mp_window : Z) (st st' : state) (r : result unit) (c : content) :
  write C input_path output_path cens_sr mp_window st = (r, st') ->
  In (EvWrite (recording_dir input_path output_path // "metadata.json") c)
     (new_events st st') ->
  exists md,
    c = Text (JObj md) /\
    ((Dict.get "motif_0" md = Some JNull /\ Dict.get "motif_1" md = Some JNull) \/
     (exists a b, Dict.get "motif_0" md = Some (JInt a) /\
                  Dict.get "motif_1" md = Some (JInt b))).
Proof.
  intros Hrun Hin. rewrite div_metadata in Hin.
  destruct (write_trace_arrays _ _ _ _ _ _ _ _ Hrun) as (evs & Hevs & Harr).
  destruct (write_trace _ _ _ _ _ _ _ _ Hrun) as (evs' & Hevs' & Htext).
  rewrite (new_events_app _ _ _ Hevs) in Hin.
  assert (evs' = evs) as -> by (rewrite Hevs in Hevs'; eapply app_inv_head; eauto).
  destruct (Harr _ _ Hin) as [(j & ->)|[Hp|Hp]];
    [|apply app_inv_head in Hp; discriminate ..].
  destruct (Htext _ _ Hin) as (_ & clip & data & sr & hop & cens & m & _ & _
                               & _ & _ & -> & _).
  eexists. split; [reflexivity|].
  destruct m as [[a b]|]; [right; exists a, b; now split | left; now split].
Qed.

Lemma motif_fields_null_together_witness :
  exists md,
    Text (JObj (metadata_with Fixture.long_ogg 10 10 10 (Array2 12 52 [])
                  (repeat (0 # 1)%Q 51) (51 # 10)%Q (Some (2, 12)))) = Text (JObj md) /\
    ((Dict.get "motif_0" md = Some JNull /\ Dict.get "motif_1" md = Some JNull) \/
     (exists a b, Dict.get "motif_0" md = Some (JInt a) /\
                  Dict.get "motif_1" md = Some (JInt b))).
Proof.
  eapply (motif_fields_null_together Fixture.C Fixture.long_ogg Fixture.out 10 10
            Fixture.start
            (snd (write Fixture.C Fixture.long_ogg Fixture.out 10 10 Fixture.start))
            (Ok tt)).
  - reflexivity.
  - vm_compute. right. right. right. right. left. reflexivity.
Defined.

(** C3, as stated, fails. The long clip has 52 frames and the window is
    100. [write] checks no window: it hands it to [simple_fast], whose
    own exception comes back, a [ValueError] here and no
    [InvalidWindowError]; and by then the folder of the recording has
    been made, so the file system is not as it was. *)
Lemma write_does_not_validate_window :
  let r := write Fixture.C Fixture.long_ogg Fixture.out 10 100 Fixture.start in
  let path := recording_dir Fixture.long_ogg Fixture.out in
  (exists c data sr hop cens,
     FS.get Fixture.long_ogg (fs Fixture.start) = Ok c /\
     librosa_load Fixture.C c = Ok (data, sr) /\
     cens_per_sec Fixture.C sr 10 = Ok hop /\
     chroma_cens Fixture.C data sr hop = Ok cens /\
     (5 <= get_duration Fixture.C data sr)%Q /\
     Z.of_nat (shape1 cens) <= 100) /\
  fst r = Raise (ValueError "Time series is too short relative to desired window size") /\
  FS.exists_ (fs Fixture.start) path = false /\
  FS.is_dir (fs (snd r)) path = true /\
  ~ rejects_window Fixture.C Fixture.long_ogg Fixture.out 10 100 Fixture.start.
Proof.
  intros r path. split; [|split; [|split; [|split]]].
  - do 5 eexists. repeat split; try reflexivity; discriminate.
  - reflexivity.
  - reflexivity.
  - vm_compute. reflexivity.
  - intros [_ Hfs]. apply (f_equal (fun m => m !! path)) in Hfs.
    vm_compute in Hfs. discriminate.
Qed.

(** C3, amended. [write] does not check the window. When the locator
    raises on it, [write] raises the same exception; the audio has been
    loaded, the features extracted and the folder of the recording made
    by then, and no file has been written. *)
Theorem write_propagates_locator_error
    (C : collaborators) (input_path output_path : list string)
    (cens_sr mp_window : Z) (st : state)
    (data : list Q) (sr hop : Z) (cens : array2) (fs1 : gmap (list string) node)
    (e : exn) :
  prepared C input_path output_path cens_sr st data sr hop cens fs1 ->
  (5 <= get_duration C data sr)%Q ->
  simple_fast C cens cens mp_window = Raise e ->
  exists st',
    write C input_path output_path cens_sr mp_window st = (Raise e, st') /\
    fs st' = fs1 /\
    new_events st st' =
      [EvLoad input_path; EvChromaCens sr hop;
       EvMkdir (recording_dir input_path output_path); EvSimpleFast mp_window] /\
    (forall p c, ~ In (EvWrite p c) (new_events st st')).
Proof.
  intros H Hd Hsf. apply Qltb_ge in Hd.
  eexists. split; [eapply write_locator_raises; eauto|].
  unfold new_events. cbn [fs trace]. rewrite drop_app_length.
  split; [reflexivity|]. split; [reflexivity|].
  intros p c Hin. cbn [In] in Hin. intuition discriminate.
Qed.

Lemma write_propagates_locator_error_witness :
  exists st',
    write Fixture.C Fixture.long_ogg Fixture.out 10 100 Fixture.start =
      (Raise (ValueError "Time series is too short relative to desired window size"),
       st') /\
    fs st' = <[recording_dir Fixture.long_ogg Fixture.out := Dir]>
               (<[Fixture.out := Dir]>
                  (<[["data"; "intermediate"; "motif"] := Dir]>
                     (<[["data"; "intermediate"] := Dir]> Fixture.disk))) /\
    new_events Fixture.start st' =
      [EvLoad Fixture.long_ogg; EvChromaCens 10 1;
       EvMkdir (recording_dir Fixture.long_ogg Fixture.out); EvSimpleFast 100] /\
    (forall p c, ~ In (EvWrite p c) (new_events Fixture.start st')).
Proof.
  eapply (write_propagates_locator_error Fixture.C Fixture.long_ogg Fixture.out
            10 100 Fixture.start).
  - fixture_prepared.
  - discriminate.
  - reflexivity.
Defined.

(** C4 at a short recording. The first run leaves [metadata.json], all
    that a recording of 4.9 seconds ever gets. The second run does not
    find [mp.npy] and [pi.npy], so it is not skipped: it loads the
    audio, extracts the features and writes the record again, the same
    record. *)
Theorem write_twice_on_short_recording :
  let st1 := snd (write Fixture.C Fixture.short_ogg Fixture.out 10 50 Fixture.start) in
  let path := recording_dir Fixture.short_ogg Fixture.out in
  exists record,
    write Fixture.C Fixture.short_ogg Fixture.out 10 50 Fixture.start =
      (Ok tt, st1) /\
    FS.get (path // "metadata.json") (fs st1) = Ok record /\
    already_complete (fs st1) path = false /\
    write Fixture.C Fixture.short_ogg Fixture.out 10 50 st1 =
      (Ok tt,
       State (fs st1)
             (trace st1 ++
              [EvLoad Fixture.short_ogg; EvChromaCens 10 1; EvMkdir path;
               EvWrite (path // "metadata.json") record])).
Proof.
  eexists. split; [reflexivity|]. split; [reflexivity|]. split; [reflexivity|].
  vm_compute. reflexivity.
Qed.

(** C7. With no clip under the folder it scans, [extract] raises; with
    no [metadata.json] under the folder it scans, [consolidate] raises
    [ValueError("no files found")]. Neither touches a file. *)
Theorem commands_raise_without_input
    (C : collaborators) (ROOT : list string) (st : state) :
  (forall species dataset,
     FS.rglob (FS.ends_with ".ogg") (extract_src ROOT species) (fs st) = [] ->
     exists e, extract C ROOT species dataset st = (Raise e, st)) /\
  (forall input output,
     FS.rglob (String.eqb "metadata.json") (consolidate_src ROOT input) (fs st) = [] ->
     consolidate ROOT input output st = (Raise (ValueError "no files found"), st)).
Proof.
  split.
  - intros species dataset _. eexists. apply extract_raises.
  - intros input output H. now apply consolidate_no_files.
Qed.

Lemma commands_raise_without_input_witness :
  (exists e, extract Fixture.C Fixture.ROOT (Some "norcar") "motif" Fixture.start =
             (Raise e, Fixture.start)) /\
  consolidate Fixture.ROOT "motif" "motif-consolidated" Fixture.start =
  (Raise (ValueError "no files found"), Fixture.start).
Proof.
  destruct (commands_raise_without_input Fixture.C Fixture.ROOT Fixture.start)
    as [He Hc].
  split.
  - apply (He (Some "norcar") "motif"). vm_compute. reflexivity.
  - apply (Hc "motif" "motif-consolidated"). vm_compute. reflexivity.
Defined.




(** C9 as stated, that each row holds exactly the fields of its record,
    fails on the table of [Fixture.extracted]: the long recording's
    record holds the integer 2 under [motif_0] and its row the float 2;
    the short recording's record holds [null] there and its row is
    missing the cell. *)
Lemma consolidate_stores_motifs_as_floats :
  let files := FS.rglob (String.eqb "metadata.json")
                 (consolidate_src Fixture.ROOT "motif") (fs Fixture.extracted) in
  let run := consolidate Fixture.ROOT "motif" "motif-consolidated" Fixture.extracted in
  Forall2 (fun f d => FS.get f (fs Fixture.extracted) = Ok (Text (JObj d)))
    files Fixture.found /\
  exists t long short,
    fst run = Ok tt /\
    FS.get (consolidate_dst Fixture.ROOT "motif-consolidated") (fs (snd run)) =
      Ok (Parquet t) /\
    Fixture.found !! 0%nat = Some long /\
    Dict.get "motif_0" long = Some (JInt 2) /\
    Frame.field t 0 "motif_0" = Some (JFloat (2 # 1)) /\
    Fixture.found !! 1%nat = Some short /\
    Dict.get "motif_0" short = Some JNull /\
    Frame.field t 1 "motif_0" = None /\
    ~ (forall i d, Fixture.found !! i = Some d ->
         forall k, Frame.field t i k = Dict.get k d).
Proof.
  split; [vm_compute; repeat constructor|].
  do 3 eexists.
  do 8 (split; [vm_compute; reflexivity|]).
  intros H.
  assert (Fixture.found !! 0%nat = Some
    [("source_name", JStr "train_audio/afrsil1/XC2.ogg");
         ("cens_sample_rate", JInt 10); ("matrix_profile_window", JInt 10);
         ("sample_rate", JInt 10); ("duration_cens", JInt 52);
         ("duration_samples", JInt 51); ("duration_seconds", JFloat (510 # 100));
         ("motif_0", JInt 2); ("motif_1", JInt 12)]) as E by (vm_compute; reflexivity).
  pose proof (H _ _ E "motif_0") as H'.
  vm_compute in H'. discriminate.
Qed.

(** C9. When every [metadata.json] found holds a record as [write]
    leaves it and the table can be written, [consolidate] returns and
    the table on disk has one row per file found and the nine keys as
    columns. Row [i] holds what the record of file [i] holds under every
    key but the two motif fields, and under a motif field too unless
    the records found hold an integer there in one and [null] in
    another; under such a key the row holds the float of the record's
    integer, and is missing the cell where the record holds [null]. *)
Theorem consolidate_rows_match_up_to_typing
    (ROOT : list string) (input output : string) (st : state)
    (ds : list (list (string * json))) :
  let files :=
    FS.rglob (String.eqb "metadata.json") (consolidate_src ROOT input) (fs st) in
  let dst := consolidate_dst ROOT output in
  files <> [] ->
  Forall2 (fun f d => FS.get f (fs st) = Ok (Text (JObj d))) files ds ->
  Forall written_record ds ->
  FS.is_dir (fs st) (removelast dst) = true ->
  FS.is_dir (fs st) dst = false ->
  exists t st',
    consolidate ROOT input output st = (Ok tt, st') /\
    FS.get dst (fs st') = Ok (Parquet t) /\
    length (rows t) = length files /\
    columns t = metadata_keys /\
    forall i d, ds !! i = Some d ->
      (forall k, k <> "motif_0" -> k <> "motif_1" ->
         Frame.field t i k = Dict.get k d) /\
      (forall k, mixes_int_and_null k ds = false ->
         Frame.field t i k = Dict.get k d) /\
      (forall k, mixes_int_and_null k ds = true ->
         (Dict.get k d = Some JNull -> Frame.field t i k = None) /\
         (forall n, Dict.get k d = Some (JInt n) ->
            Frame.field t i k = Some (JFloat (inject_Z n)))).
Proof.
  intros files dst Hne Hread Hall Hparent Hdst.
  destruct (consolidate_records ROOT st input output ds Hne Hread Hparent Hdst)
    as (t & Ht & Hrun).
  destruct (DataFrame_total ds) as (t' & Ht' & Hlen & Hcols).
  assert (t' = t) as -> by congruence.
  assert (length files = length ds) as Hfiles by (eapply Forall2_length; eauto).
  assert (ds <> []) as Hds.
  { intros ->. destruct files; [congruence|discriminate]. }
  exists t. eexists. split; [exact Hrun|]. cbn [fs].
  split; [now apply get_inserted|].
  split; [congruence|].
  split; [rewrite Hcols; now apply written_columns|].
  intros i d Hi. repeat split.
  - intros k H0 H1.
    now rewrite (written_field ds t i d k Hall Ht Hi), mixes_only_motifs.
  - intros k Hk. now rewrite (written_field ds t i d k Hall Ht Hi), Hk.
  - intros Hnull. now rewrite (written_field ds t i d k Hall Ht Hi), H, Hnull.
  - intros n Hn. now rewrite (written_field ds t i d k Hall Ht Hi), H, Hn.
Qed.

Lemma consolidate_rows_match_up_to_typing_witness :
  exists t st',
    consolidate Fixture.ROOT "motif" "motif-consolidated" Fixture.extracted =
      (Ok tt, st') /\
    FS.get (consolidate_dst Fixture.ROOT "motif-consolidated") (fs st') =
      Ok (Parquet t) /\
    length (rows t) =
      length (FS.rglob (String.eqb "metadata.json")
                (consolidate_src Fixture.ROOT "motif") (fs Fixture.extracted)) /\
    columns t = metadata_keys /\
    forall i d, Fixture.found !! i = Some d ->
      (forall k, k <> "motif_0" -> k <> "motif_1" ->
         Frame.field t i k = Dict.get k d) /\
      (forall k, mixes_int_and_null k Fixture.found = false ->
         Frame.field t i k = Dict.get k d) /\
      (forall k, mixes_int_and_null k Fixture.found = true ->
         (Dict.get k d = Some JNull -> Frame.field t i k = None) /\
         (forall n, Dict.get k d = Some (JInt n) ->
            Frame.field t i k = Some (JFloat (inject_Z n)))).
Proof.
  apply (consolidate_rows_match_up_to_typing Fixture.ROOT "motif" "motif-consolidated"
           Fixture.extracted Fixture.found).
  - vm_compute. discriminate.
  - vm_compute. repeat constructor.
  - assert (Fixture.found =
      [ [("source_name", JStr "train_audio/afrsil1/XC2.ogg");
         ("cens_sample_rate", JInt 10); ("matrix_profile_window", JInt 10);
         ("sample_rate", JInt 10); ("duration_cens", JInt 52);
         ("duration_samples", JInt 51); ("duration_seconds", JFloat (510 # 100));
         ("motif_0", JInt 2); ("motif_1", JInt 12)];
        [("source_name", JStr "train_audio/afrsil1/XC1.ogg");
         ("cens_sample_rate", JInt 10); ("matrix_profile_window", JInt 10);
         ("sample_rate", JInt 10); ("duration_cens", JInt 50);
         ("duration_samples", JInt 49); ("duration_seconds", JFloat (490 # 100));
         ("motif_0", JNull); ("motif_1", JNull)] ]) as -> by (vm_compute; reflexivity).
    constructor; [|constructor; [|constructor]].
    + do 9 eexists. split; [reflexivity|]. unfold int64, motif_value.
      repeat split; try lia; right; eexists; (split; [reflexivity|lia]).
    + do 9 eexists. split; [reflexivity|]. unfold int64, motif_value.
      repeat split; try lia; left; reflexivity.
  - vm_compute. reflexivity.
  - vm_compute. reflexivity.
Defined.

(** * Further properties *)

(** ** What [write] leaves alone *)

Section Frame.

Implicit Types (m : gmap (list string) node) (p q : list string).

Lemma put_result m m' p c : FS.put p c m = Ok m' -> m' = <[p := File c]> m.
Proof.
  unfold FS.put. destruct (negb _); [discriminate|].
  destruct (FS.node_at m p) as [[|]|]; congruence.
Qed.

Lemma mkdir_elsewhere m m' p q :
  FS.mkdir p m = Ok m' -> ~ In q (Path.ancestors_and_self p) ->
  FS.node_at m' q = FS.node_at m q.
Proof. intros H Hq. eapply mkdirs_elsewhere; eauto. Qed.

End Frame.

(** X1. A run of [write], whatever its outcome, changes nothing outside
    the folder of the recording. Take the folder and a path [q] written
    in the one way the system resolves to itself (no [.] or [..] part,
    both absolute or both relative): if [q] is neither that folder, nor
    one of the folders above it, nor one of its three output files, it
    holds after the run what it held before. *)
Theorem write_touches_only_its_folder
    (C : collaborators) (input_path output_path : list string)
    (cens_sr mp_window : Z) (st st' : state) (r : result unit) (q : list string) :
  write C input_path output_path cens_sr mp_window st = (r, st') ->
  canonical (recording_dir input_path output_path) ->
  canonical q ->
  same_anchor q (recording_dir input_path output_path) ->
  ~ In q (Path.ancestors_and_self (recording_dir input_path output_path)) ->
  ~ In q (map (fun x => recording_dir input_path output_path // x) outputs) ->
  FS.node_at (fs st') q = FS.node_at (fs st) q.
Proof.
  unfold outputs. cbn [map]. rewrite div_metadata, div_mp, div_pi.
  intros Hrun _ _ _ Hup Hout.
  assert (q <> recording_dir input_path output_path ++ ["metadata.json"] /\
          q <> recording_dir input_path output_path ++ ["mp.npy"] /\
          q <> recording_dir input_path output_path ++ ["pi.npy"]) as (H0 & H1 & H2).
  { cbn [In] in Hout. repeat split; intros ->; apply Hout; auto. }
  revert Hrun.
  unfold write, load, read_file, mkdir, write_file, change, lift, log, read,
    raise, ret, bind, getitem.
  rewrite div_metadata, div_mp, div_pi. fold (recording_name input_path).
  fold (recording_dir input_path output_path).
  cbn [fs trace]. intros Hrun.
  repeat (let E := fresh "E" in case_match eqn:E; cbn [fs trace] in *);
    simplify_eq; cbn [fs trace]; try reflexivity;
    repeat match goal with
           | H : FS.put _ _ _ = Ok _ |- _ =>
               apply put_result in H; subst; cbn [fs trace] in *
           end;
    cbn [fs trace] in *;
    rewrite ?node_at_insert_ne by assumption;
    try (eapply mkdir_elsewhere; eassumption).
Qed.

Lemma write_touches_only_its_folder_witness :
  FS.node_at
    (fs (snd (write Fixture.C Fixture.long_ogg Fixture.out 10 10 Fixture.start)))
    Fixture.long_ogg =
  FS.node_at (fs Fixture.start) Fixture.long_ogg.
Proof.
  apply (write_touches_only_its_folder Fixture.C Fixture.long_ogg Fixture.out 10 10
           Fixture.start
           (snd (write Fixture.C Fixture.long_ogg Fixture.out 10 10 Fixture.start))
           (Ok tt) Fixture.long_ogg).
  - reflexivity.
  - repeat constructor; discriminate.
  - repeat constructor; discriminate.
  - reflexivity.
  - vm_compute. intuition discriminate.
  - vm_compute. intuition discriminate.
Defined.

(** ** Failures inside [write] *)

Ltac absent :=
  try reflexivity;
  try (unfold not; intros; match goal with
               | H : In _ _ |- _ => cbn [In app] in H; intuition discriminate
               end).

(** X2. When the clip cannot be opened or decoded, or the hop or the
    features cannot be computed, [write] raises that very exception
    and the file system is as it was: the folder of the recording is
    made only after the features. *)
Theorem write_feature_failure_leaves_disk
    (C : collaborators) (input_path output_path : list string)
    (cens_sr mp_window : Z) (st : state) (e : exn) :
  output_blocked (fs st) output_path = false ->
  already_complete (fs st) (recording_dir input_path output_path) = false ->
  (FS.get input_path (fs st) = Raise e \/
   (exists c, FS.get input_path (fs st) = Ok c /\ librosa_load C c = Raise e) \/
   (exists c data sr,
      FS.get input_path (fs st) = Ok c /\ librosa_load C c = Ok (data, sr) /\
      cens_per_sec C sr cens_sr = Raise e) \/
   (exists c data sr hop,
      FS.get input_path (fs st) = Ok c /\ librosa_load C c = Ok (data, sr) /\
      cens_per_sec C sr cens_sr = Ok hop /\
      chroma_cens C data sr hop = Raise e)) ->
  exists st',
    write C input_path output_path cens_sr mp_window st = (Raise e, st') /\
    fs st' = fs st /\
    (forall p, ~ In (EvMkdir p) (new_events st st')) /\
    (forall p c, ~ In (EvWrite p c) (new_events st st')).
Proof.
  intros Hb Hc Hfail.
  unfold write, load, read_file, mkdir, write_file, change, lift, log, read,
    raise, ret, bind.
  unfold output_blocked in Hb; rewrite Hb.
  unfold already_complete, recording_dir, recording_name in Hc; rewrite Hc.
  cbn [fs trace].
  destruct Hfail as [H|[(c & H1 & H2)|[(c & data & sr & H1 & H2 & H3)
                    |(c & data & sr & hop & H1 & H2 & H3 & H4)]]].
  - rewrite H. eexists. split; [reflexivity|]. unfold new_events. cbn [fs trace].
    rewrite drop_app_length. repeat split; absent.
  - rewrite H1, H2. eexists. split; [reflexivity|]. unfold new_events. cbn [fs trace].
    rewrite drop_app_length. repeat split; absent.
  - rewrite H1, H2, H3. eexists. split; [reflexivity|]. unfold new_events.
    cbn [fs trace]. rewrite drop_app_length.
    repeat split; absent.
  - rewrite H1, H2, H3. cbn [fs trace]. rewrite H4.
    eexists. split; [reflexivity|]. unfold new_events.
    cbn [fs trace]. rewrite <- app_assoc, drop_app_length.
    repeat split; absent.
Qed.

Lemma write_feature_failure_leaves_disk_witness :
  exists st',
    write Fixture.C (Fixture.audio ++ ["XC404.ogg"]) Fixture.out 10 50 Fixture.start =
      (Raise (Exn "FileNotFoundError" "data/raw/birdclef-2022/train_audio/afrsil1/XC404.ogg"),
       st') /\
    fs st' = fs Fixture.start /\
    (forall p, ~ In (EvMkdir p) (new_events Fixture.start st')) /\
    (forall p c, ~ In (EvWrite p c) (new_events Fixture.start st')).
Proof.
  apply (write_feature_failure_leaves_disk Fixture.C (Fixture.audio ++ ["XC404.ogg"])
           Fixture.out 10 50 Fixture.start).
  - reflexivity.
  - reflexivity.
  - left. reflexivity.
Defined.

(** X3. When the locator returns an empty profile, [write] raises the
    [ValueError] of [np.argmin]; when the index has no entry at the
    position of the minimum, it raises [IndexError]. In both cases the
    folder of the recording has been made and no file is written. *)
Theorem write_reduction_errors
    (C : collaborators) (input_path output_path : list string)
    (cens_sr mp_window : Z) (st : state)
    (data : list Q) (sr hop : Z) (cens : array2) (fs1 : gmap (list string) node)
    (mp : list Q) (pi : list Z) :
  prepared C input_path output_path cens_sr st data sr hop cens fs1 ->
  (5 <= get_duration C data sr)%Q ->
  simple_fast C cens cens mp_window = Ok (mp, pi) ->
  (forall i, argmin mp = Ok i -> pi !! i = None) ->
  exists e st',
    write C input_path output_path cens_sr mp_window st = (Raise e, st') /\
    (mp = [] /\ e = ValueError "attempt to get argmin of an empty sequence" \/
     mp <> [] /\ e = Exn "IndexError" "index out of bounds") /\
    fs st' = fs1 /\
    (forall p c, ~ In (EvWrite p c) (new_events st st')).
Proof.
  intros H Hd Hsf Hcase. apply Qltb_ge in Hd.
  destruct H as (Hb & Hc & (c & Hget & Hdec) & Hhop & Hcens & Hdir).
  unfold write, load, read_file, mkdir, write_file, change, lift, log, read,
    raise, ret, bind, getitem.
  unfold output_blocked in Hb; rewrite Hb.
  unfold already_complete, recording_dir, recording_name in Hc; rewrite Hc.
  cbn [fs trace]. rewrite Hget, Hdec, Hhop, Hcens. cbn [fs trace].
  unfold recording_dir, recording_name in Hdir; rewrite Hdir.
  rewrite Hd. cbn [fs trace]. rewrite Hsf.
  destruct mp as [|x mp].
  - cbn [argmin]. do 2 eexists. split; [reflexivity|].
    split; [left; split; reflexivity|]. split; [reflexivity|].
    unfold new_events. cbn [trace]. rewrite <- !app_assoc, drop_app_length.
    absent.
  - cbn [argmin]. rewrite (Hcase _ eq_refl).
    do 2 eexists. split; [reflexivity|].
    split; [right; split; [discriminate|reflexivity]|]. split; [reflexivity|].
    unfold new_events. cbn [trace]. rewrite <- !app_assoc, drop_app_length.
    absent.
Qed.

Lemma write_reduction_errors_witness :
  exists e st',
    write Faulty.empty_profile Fixture.long_ogg Fixture.out 10 10 Fixture.start =
      (Raise e, st') /\
    (@nil Q = [] /\ e = ValueError "attempt to get argmin of an empty sequence" \/
     @nil Q <> [] /\ e = Exn "IndexError" "index out of bounds") /\
    fs st' = <[recording_dir Fixture.long_ogg Fixture.out := Dir]>
               (<[Fixture.out := Dir]>
                  (<[["data"; "intermediate"; "motif"] := Dir]>
                     (<[["data"; "intermediate"] := Dir]> Fixture.disk))) /\
    (forall p c, ~ In (EvWrite p c) (new_events Fixture.start st')).
Proof.
  eapply (write_reduction_errors Faulty.empty_profile Fixture.long_ogg Fixture.out
            10 10 Fixture.start _ _ _ _ _ [] []).
  - fixture_prepared.
  - discriminate.
  - reflexivity.
  - discriminate.
Defined.

(** ** The complete set of outputs *)

Lemma complete_after_writes (m : gmap (list string) node) (p : list string)
    (c1 c2 c3 : content) :
  FS.is_dir m p = true ->
  already_complete
    (<[p ++ ["pi.npy"] := File c3]>
       (<[p ++ ["mp.npy"] := File c2]>
          (<[p ++ ["metadata.json"] := File c1]> m))) p = true.
Proof.
  intros Hp. unfold already_complete, outputs. cbn [forallb].
  rewrite div_metadata, div_mp, div_pi.
  assert (FS.is_dir
            (<[p ++ ["pi.npy"] := File c3]>
               (<[p ++ ["mp.npy"] := File c2]>
                  (<[p ++ ["metadata.json"] := File c1]> m))) p = true) as Hdir
    by (rewrite !is_dir_insert_ne; [exact Hp | apply app_single_ne_self ..]).
  rewrite Hdir, (is_dir_exists _ _ Hdir).
  rewrite exists_inserted by reflexivity.
  rewrite (exists_insert_ne _ (p ++ ["mp.npy"])) by now apply app_single_ne.
  rewrite exists_inserted by reflexivity.
  rewrite !(exists_insert_ne _ (p ++ ["metadata.json"])) by now apply app_single_ne.
  rewrite exists_inserted by reflexivity.
  reflexivity.
Qed.

(** X4. [pi.npy] is the last thing [write] writes. A run in which it
    is written has returned normally, has written [metadata.json] and
    [mp.npy] just before it, in that order, and leaves on disk all that
    the early exit of the next run looks for. *)
Theorem write_of_pi_completes_the_set
    (C : collaborators) (input_path output_path : list string)
    (cens_sr mp_window : Z) (st st' : state) (r : result unit) (c : content) :
  write C input_path output_path cens_sr mp_window st = (r, st') ->
  In (EvWrite (recording_dir input_path output_path // "pi.npy") c)
     (new_events st st') ->
  r = Ok tt /\
  already_complete (fs st') (recording_dir input_path output_path) = true /\
  exists pre record mp,
    new_events st st' =
    pre ++ [EvWrite (recording_dir input_path output_path // "metadata.json")
              (Text record);
            EvWrite (recording_dir input_path output_path // "mp.npy") (NpyFloat mp);
            EvWrite (recording_dir input_path output_path // "pi.npy") c].
Proof.
  unfold write, load, read_file, mkdir, write_file, change, lift, log, read,
    raise, ret, bind, getitem, new_events.
  rewrite !div_metadata, !div_mp, !div_pi. fold (recording_name input_path).
  fold (recording_dir input_path output_path).
  cbn [fs trace]. intros Hrun.
  repeat (let E := fresh "E" in case_match eqn:E; cbn [fs trace] in *);
    simplify_eq; cbn [fs trace];
    rewrite <- ?app_assoc; rewrite ?drop_app_length, ?drop_all;
    cbn [app In]; intros Hin; intuition (try discriminate);
    repeat match goal with
           | H : EvWrite _ _ = EvWrite _ _ |- _ => inversion H; clear H
           | H : _ ++ [_] = _ ++ [_] |- _ => apply app_inv_head in H; try discriminate
           end; subst; cbn [fs trace] in *.
  - repeat match goal with
           | H : FS.put _ _ _ = Ok _ |- _ =>
               apply put_result in H; subst; cbn [fs trace] in *
           end.
    apply complete_after_writes. eapply mkdir_is_dir; eauto.
  - eexists [_; _; _; _]. do 2 eexists. reflexivity.
Qed.

Lemma write_of_pi_completes_the_set_witness :
  let st' := snd (write Fixture.C Fixture.long_ogg Fixture.out 10 10 Fixture.start) in
  Ok tt = Ok tt /\
  already_complete (fs st') (recording_dir Fixture.long_ogg Fixture.out) = true /\
  exists pre record mp,
    new_events Fixture.start st' =
    pre ++ [EvWrite (recording_dir Fixture.long_ogg Fixture.out // "metadata.json")
              (Text record);
            EvWrite (recording_dir Fixture.long_ogg Fixture.out // "mp.npy")
              (NpyFloat mp);
            EvWrite (recording_dir Fixture.long_ogg Fixture.out // "pi.npy")
              (NpyInt (snd (Fixture.profile 52 10)))].
Proof.
  intros st'.
  apply (write_of_pi_completes_the_set Fixture.C Fixture.long_ogg Fixture.out 10 10
           Fixture.start st' (Ok tt)).
  - reflexivity.
  - vm_compute. do 6 right. left. reflexivity.
Defined.

(** ** Running [write] again *)

(** X5. After a run that went through the locator and wrote the three
    outputs, a second run on the same arguments returns at the early
    exit: it adds no event (no load, no feature extraction, no locator
    call, no write) and leaves every file as it is. *)
Theorem write_again_after_full_run
    (C : collaborators) (input_path output_path : list string)
    (cens_sr mp_window : Z) (st : state)
    (data : list Q) (sr hop : Z) (cens : array2) (fs1 : gmap (list string) node)
    (mp : list Q) (pi : list Z) :
  String.prefix "/" (recording_name input_path) = false ->
  prepared C input_path output_path cens_sr st data sr hop cens fs1 ->
  (5 <= get_duration C data sr)%Q ->
  simple_fast C cens cens mp_window = Ok (mp, pi) ->
  mp <> [] -> (length mp <= length pi)%nat ->
  writable (fs st) (recording_dir input_path output_path) outputs = true ->
  exists st1,
    write C input_path output_path cens_sr mp_window st = (Ok tt, st1) /\
    write C input_path output_path cens_sr mp_window st1 = (Ok tt, st1).
Proof.
  intros Hrel H Hd Hsf Hmp Hlen Hw. apply Qltb_ge in Hd.
  destruct (argmin_nonempty mp Hmp) as (i & Hi).
  pose proof (first_min_bound _ _ (argmin_first_min _ _ Hi)) as Hbound.
  destruct (lookup_lt_is_Some_2 pi i ltac:(lia)) as (m1 & Hm1).
  pose proof (write_long C input_path output_path cens_sr mp_window st
                data sr hop cens fs1 mp pi i m1 H Hd Hsf Hi Hm1 Hw) as Hrun.
  cbv zeta in Hrun.
  pose proof (write_long_then_skips C input_path output_path cens_sr mp_window st
                Hrel data sr hop cens fs1 mp pi i m1 H Hd Hsf Hi Hm1 Hw) as Hagain.
  cbv zeta in Hagain. rewrite Hrun in Hagain. cbn [snd] in Hagain.
  eexists. split; [exact Hrun|exact Hagain].
Qed.

Lemma write_again_after_full_run_witness :
  exists st1,
    write Fixture.C Fixture.long_ogg Fixture.out 10 10 Fixture.start = (Ok tt, st1) /\
    write Fixture.C Fixture.long_ogg Fixture.out 10 10 st1 = (Ok tt, st1).
Proof.
  eapply (write_again_after_full_run Fixture.C Fixture.long_ogg Fixture.out 10 10
            Fixture.start).
  - reflexivity.
  - fixture_prepared.
  - discriminate.
  - reflexivity.
  - discriminate.
  - simpl. lia.
  - reflexivity.
Defined.

(** X6. After a run on a recording shorter than five seconds, into a
    folder that had no [mp.npy], the early exit of the next run does
    not fire: the second run loads the audio again. *)
Theorem write_again_after_short_run
    (C : collaborators) (input_path output_path : list string)
    (cens_sr mp_window : Z) (st : state)
    (data : list Q) (sr hop : Z) (cens : array2) (fs1 : gmap (list string) node) :
  String.prefix "/" (recording_name input_path) = false ->
  prepared C input_path output_path cens_sr st data sr hop cens fs1 ->
  (get_duration C data sr < 5)%Q ->
  FS.is_dir (fs st) (recording_dir input_path output_path // "metadata.json") = false ->
  FS.exists_ (fs st) (recording_dir input_path output_path // "mp.npy") = false ->
  exists st1 r2 st2 evs,
    write C input_path output_path cens_sr mp_window st = (Ok tt, st1) /\
    already_complete (fs st1) (recording_dir input_path output_path) = false /\
    write C input_path output_path cens_sr mp_window st1 = (r2, st2) /\
    new_events st1 st2 = EvLoad input_path :: evs.
Proof.
  intros Hrel H Hd Hw Hmp. apply Qltb_lt in Hd.
  pose proof H as (_ & _ & _ & _ & _ & Hmk).
  pose proof (write_short C input_path output_path cens_sr mp_window st
                data sr hop cens fs1 H Hd Hw) as Hrun.
  destruct (write_short_then_reloads C input_path output_path cens_sr mp_window st
              Hrel data sr hop cens fs1 H Hd Hw Hmp) as (evs & Hevs).
  rewrite Hrun in Hevs. cbn [snd] in Hevs.
  eexists. eexists. eexists. exists evs. split; [exact Hrun|].
  split; [|split; [apply surjective_pairing|]].
  - cbn [fs]. unfold already_complete, outputs. cbn [forallb].
    rewrite div_metadata, div_mp in *.
    rewrite (exists_insert_ne _ (recording_dir input_path output_path ++ ["mp.npy"]))
      by now apply app_single_ne.
    assert (FS.exists_ fs1 (recording_dir input_path output_path ++ ["mp.npy"]) = false)
      as -> by (unfold FS.exists_ in *; now rewrite (mkdir_below _ _ _ _ Hmk)).
    now rewrite andb_false_l, !andb_false_r.
  - unfold new_events. rewrite Hevs. apply drop_app_length.
Qed.

Lemma write_again_after_short_run_witness :
  exists st1 r2 st2 evs,
    write Fixture.C Fixture.short_ogg Fixture.out 10 50 Fixture.start = (Ok tt, st1) /\
    already_complete (fs st1) (recording_dir Fixture.short_ogg Fixture.out) = false /\
    write Fixture.C Fixture.short_ogg Fixture.out 10 50 st1 = (r2, st2) /\
    new_events st1 st2 = EvLoad Fixture.short_ogg :: evs.
Proof.
  eapply (write_again_after_short_run Fixture.C Fixture.short_ogg Fixture.out 10 50
            Fixture.start).
  - reflexivity.
  - fixture_prepared.
  - reflexivity.
  - reflexivity.
  - reflexivity.
Defined.

(** ** The duration in the record *)

Lemma round_half_even_below (y : Q) (k : Z) :
  (y < inject_Z k)%Q -> round_half_even y <= k.
Proof.
  intros Hy. pose proof (round_half_even_close y) as H.
  apply Qabs_Qle_condition in H as [_ H].
  assert (inject_Z (round_half_even y) < inject_Z (k + 1))%Q as Hlt
    by (rewrite inject_Z_plus; change (inject_Z 1) with 1%Q; lra).
  rewrite <- Zlt_Qlt in Hlt. lia.
Qed.

Lemma round_half_even_above (y : Q) (k : Z) :
  (inject_Z k <= y)%Q -> k <= round_half_even y.
Proof.
  intros Hy. pose proof (round_half_even_close y) as H.
  apply Qabs_Qle_condition in H as [H _].
  assert (inject_Z (k - 1) < inject_Z (round_half_even y))%Q as Hlt
    by (unfold Z.sub; rewrite inject_Z_plus; change (inject_Z (- (1))) with (-1 # 1)%Q; lra).
  rewrite <- Zlt_Qlt in Hlt. lia.
Qed.

(** X7. The threshold is tested on the duration before rounding. So a
    record with null motifs shows a [duration_seconds] of at most 5.00
    (a clip of 4.996 seconds is recorded as 5.00), and a record with
    integer motifs one of at least 5.00. *)
Theorem duration_seconds_and_motifs
    (C : collaborators) (input_path output_path : list string)
    (cens_sr mp_window : Z) (st st' : state) (r : result unit)
    (md : list (string * json)) :
  write C input_path output_path cens_sr mp_window st = (r, st') ->
  In (EvWrite (recording_dir input_path output_path // "metadata.json")
        (Text (JObj md)))
     (new_events st st') ->
  exists n,
    Dict.get "duration_seconds" md = Some (JFloat (n # 100)) /\
    (Dict.get "motif_0" md = Some JNull -> n <= 500) /\
    ((exists a, Dict.get "motif_0" md = Some (JInt a)) -> 500 <= n).
Proof.
  intros Hrun Hin. rewrite div_metadata in Hin.
  destruct (write_trace _ _ _ _ _ _ _ _ Hrun) as (evs & Hevs & Htext).
  rewrite (new_events_app _ _ _ Hevs) in Hin.
  destruct (Htext _ _ Hin) as (_ & clip & data & sr & hop & cens & m & _ & _
                               & _ & _ & Hmd & Hm).
  injection Hmd as ->.
  exists (round_half_even (get_duration C data sr * 100)).
  destruct m as [[a b]|].
  - destruct Hm as [Hd _]. apply Qltb_ge in Hd.
    split; [reflexivity|]. split; [discriminate|]. intros _.
    apply round_half_even_above. change (inject_Z 500) with (500 # 1)%Q. lra.
  - apply Qltb_lt in Hm.
    split; [reflexivity|]. split; [|intros (a & Ha); discriminate]. intros _.
    apply round_half_even_below. change (inject_Z 500) with (500 # 1)%Q. lra.
Qed.

Lemma duration_seconds_and_motifs_witness :
  exists n,
    Dict.get "duration_seconds"
      (metadata_with Fixture.short_ogg 10 10 10 (Array2 12 50 [])
         (repeat (0 # 1)%Q 49) (49 # 10)%Q None) = Some (JFloat (n # 100)) /\
    (Dict.get "motif_0"
       (metadata_with Fixture.short_ogg 10 10 10 (Array2 12 50 [])
          (repeat (0 # 1)%Q 49) (49 # 10)%Q None) = Some JNull -> n <= 500) /\
    ((exists a, Dict.get "motif_0"
       (metadata_with Fixture.short_ogg 10 10 10 (Array2 12 50 [])
          (repeat (0 # 1)%Q 49) (49 # 10)%Q None) = Some (JInt a)) -> 500 <= n).
Proof.
  eapply (duration_seconds_and_motifs Fixture.C Fixture.short_ogg Fixture.out 10 10
            Fixture.start
            (snd (write Fixture.C Fixture.short_ogg Fixture.out 10 10 Fixture.start))
            (Ok tt)).
  - reflexivity.
  - vm_compute. right. right. right. left. reflexivity.
Defined.

Example round2_just_below_five : round2 (4996 # 1000) = (500 # 100)%Q.
Proof. reflexivity. Qed.

(** ** The name of the folder, in general *)

Section SplitHead.

Lemma split_head_unfold (sep s : string) :
  Str.split_head sep s =
  if String.prefix sep s then EmptyString
  else match s with
       | EmptyString => EmptyString
       | String c s' => String c (Str.split_head sep s')
       end.
Proof. destruct s; reflexivity. Qed.

Lemma occurs_unfold (sep s : string) :
  Str.occurs sep s =
  String.prefix sep s ||
  match s with
  | EmptyString => false
  | String _ s' => Str.occurs sep s'
  end.
Proof. destruct s; reflexivity. Qed.

Lemma prefix_app_r (a : string) : forall b r,
  String.prefix a b = true -> String.prefix a (b +:+ r) = true.
Proof.
  induction a as [|x a IH]; intros b r H; [apply prefix_empty|].
  destruct b as [|y b]; [discriminate|].
  rewrite append_cons, prefix_cons in *.
  destruct (ascii_dec x y); [auto|discriminate].
Qed.

Lemma split_head_is_prefix (sep s : string) :
  exists r, s = Str.split_head sep s +:+ r.
Proof.
  induction s as [|c s (r & IH)]; rewrite split_head_unfold.
  - exists EmptyString. now destruct (String.prefix sep EmptyString).
  - destruct (String.prefix sep (String c s)).
    + now exists (String c s).
    + exists r. rewrite append_cons. now rewrite <- IH.
Qed.

Lemma split_head_free (c0 : ascii) (sep' s : string) :
  Str.occurs (String c0 sep') (Str.split_head (String c0 sep') s) = false.
Proof.
  induction s as [|c s IH]; rewrite split_head_unfold.
  - reflexivity.
  - destruct (String.prefix (String c0 sep') (String c s)) eqn:E; [reflexivity|].
    rewrite occurs_unfold, IH, orb_false_r.
    destruct (String.prefix (String c0 sep') (String c (Str.split_head (String c0 sep') s)))
      eqn:E'; [|reflexivity].
    destruct (split_head_is_prefix (String c0 sep') s) as (r & Hr).
    apply (prefix_app_r _ _ r) in E'. rewrite append_cons, <- Hr in E'. congruence.
Qed.

Lemma split_head_absent (sep s : string) :
  Str.occurs sep s = false -> Str.split_head sep s = s.
Proof.
  induction s as [|c s IH]; rewrite occurs_unfold, split_head_unfold; intros H;
    apply orb_false_elim in H as [-> H]; [reflexivity|]. now rewrite IH.
Qed.

Lemma prefix_ogg_app_rest (t rest : string) :
  String.prefix ".ogg" (t +:+ ".ogg" +:+ rest) = true ->
  t = EmptyString \/ String.prefix ".ogg" t = true.
Proof.
  destruct t as [|a [|b [|c [|d t]]]]; auto;
    rewrite ?append_cons;
    change (String.append EmptyString (".ogg" +:+ rest))
      with (String "." (String "o" (String "g" (String "g" rest))));
    rewrite ?prefix_cons;
    repeat match goal with
           | |- context [ascii_dec ?x ?y] => destruct (ascii_dec x y); subst; try discriminate
           end; auto; try (intros _; right; destruct t; reflexivity).
Qed.

Lemma split_head_ogg_rest (s rest : string) :
  Str.occurs ".ogg" s = false ->
  Str.split_head ".ogg" (s +:+ ".ogg" +:+ rest) = s.
Proof.
  induction s as [|c s IH]; intros H.
  - rewrite split_head_unfold.
    change (EmptyString +:+ ".ogg" +:+ rest)
      with (String "." (String "o" (String "g" (String "g" rest)))).
    rewrite !prefix_cons. repeat (destruct (ascii_dec _ _); [|congruence]).
    now rewrite prefix_empty.
  - rewrite occurs_unfold in H. apply orb_false_elim in H as [Hp Ho].
    rewrite append_cons, split_head_unfold.
    destruct (String.prefix ".ogg" (String c (s +:+ ".ogg" +:+ rest))) eqn:E.
    + rewrite <- append_cons in E.
      destruct (prefix_ogg_app_rest (String c s) rest E) as [?|?]; congruence.
    + now rewrite IH.
Qed.

Lemma ogg_rest_not_root (s rest : string) :
  String.eqb (s +:+ ".ogg" +:+ rest) "/" = false.
Proof.
  apply String.eqb_neq. destruct s as [|a [|b s]]; intros H; discriminate H.
Qed.

End SplitHead.

(** X8. The name of the folder is the filename up to its first
    [.ogg]: whatever follows that first [.ogg] is dropped with it, and
    a filename without [.ogg] is kept whole. A filename that starts
    with [.ogg] has an empty name, and its folder is the output folder
    itself. *)
Theorem recording_name_cuts_at_first_ogg (dir : list string) :
  (forall name,
     Str.occurs ".ogg" name = false -> name <> "/" ->
     recording_name (dir ++ [name]) = name) /\
  (forall stem rest,
     Str.occurs ".ogg" stem = false ->
     recording_name (dir ++ [stem +:+ ".ogg" +:+ rest]) = stem) /\
  (forall rest output_path,
     recording_dir (dir ++ [".ogg" +:+ rest]) output_path = output_path).
Proof.
  assert (forall stem rest,
            Str.occurs ".ogg" stem = false ->
            recording_name (dir ++ [stem +:+ ".ogg" +:+ rest]) = stem) as Hcut.
  { intros stem rest H. unfold recording_name.
    rewrite name_last by apply ogg_rest_not_root.
    now apply split_head_ogg_rest. }
  split; [|split; [exact Hcut|]].
  - intros name H Hroot. unfold recording_name.
    rewrite name_last by now apply String.eqb_neq.
    now apply split_head_absent.
  - intros rest output_path. unfold recording_dir.
    pose proof (Hcut EmptyString rest eq_refl) as Hname.
    change (EmptyString +:+ ".ogg" +:+ rest) with (".ogg" +:+ rest) in Hname.
    rewrite Hname. apply app_nil_r.
Qed.

Lemma recording_name_cuts_at_first_ogg_witness :
  recording_name (Fixture.audio ++ ["XC1.flac"]) = "XC1.flac" /\
  recording_name (Fixture.audio ++ ["XC1" +:+ ".ogg" +:+ ".bak.ogg"]) = "XC1".
Proof.
  destruct (recording_name_cuts_at_first_ogg Fixture.audio) as (Hkeep & Hcut & _).
  split.
  - apply (Hkeep "XC1.flac"); [reflexivity|discriminate].
  - apply (Hcut "XC1" ".bak.ogg"). reflexivity.
Defined.

(** X9. Whatever the input path, the name of the folder contains no
    [.ogg], and cutting it again at [.ogg] leaves it as it is. *)
Theorem recording_name_has_no_ogg (input_path : list string) :
  Str.occurs ".ogg" (recording_name input_path) = false /\
  Str.split_head ".ogg" (recording_name input_path) = recording_name input_path.
Proof.
  assert (Str.occurs ".ogg" (recording_name input_path) = false) as H
    by apply split_head_free.
  split; [exact H|]. now apply split_head_absent.
Qed.

(** ** What [consolidate] does to the disk *)

Section Consolidate.

Lemma read_json_state (f : list string) (s s' : state) (r : result json) :
  _read_json f s = (r, s') -> s' = s.
Proof.
  unfold _read_json, bind, read_file, ret, raise.
  destruct (FS.get f (fs s)) as [[]|]; congruence.
Qed.

Lemma read_all_state (files : list (list string)) : forall (s s' : state) r,
  starmap _read_json files s = (r, s') -> s' = s.
Proof.
  unfold starmap. induction files as [|f files IH]; intros s s' r H.
  - cbn [mapM] in H. unfold ret in H. congruence.
  - cbn [mapM] in H. unfold bind at 1 in H.
    destruct (_read_json f s) as [[j|e] s1] eqn:E1; apply read_json_state in E1 as ->;
      [|congruence].
    unfold bind at 1 in H.
    destruct (mapM _read_json files s) as [[js|e] s2] eqn:E2; apply IH in E2 as ->;
      unfold ret in H; congruence.
Qed.

Lemma read_all_unreadable (files : list (list string)) (s : state) (f : list string) :
  In f files -> (forall j, FS.get f (fs s) <> Ok (Text j)) ->
  exists e, starmap _read_json files s = (Raise e, s).
Proof.
  unfold starmap. induction files as [|g files IH]; intros Hin Hbad; [destruct Hin|].
  cbn [mapM]. unfold bind at 1.
  destruct (_read_json g s) as [[j|e] s1] eqn:E1;
    pose proof (read_json_state _ _ _ _ E1) as ->; [|eauto].
  destruct Hin as [->|Hin].
  - exfalso. revert E1. unfold _read_json, bind, read_file, ret, raise.
    destruct (FS.get f (fs s)) as [[]|] eqn:G; try discriminate.
    intros _. eapply Hbad; eauto.
  - destruct (IH Hin Hbad) as (e & He). unfold bind at 1. rewrite He. eauto.
Qed.

End Consolidate.

(** X10. [consolidate] writes all or nothing. Either it returns
    normally, having printed the head of the table and written the
    table at its destination and nothing else; or it raises, and then
    the file system is as it was. *)
Theorem consolidate_all_or_nothing
    (ROOT : list string) (input output : string) (st st' : state) (r : result unit) :
  consolidate ROOT input output st = (r, st') ->
  (r = Ok tt /\
   exists t,
     fs st' = <[consolidate_dst ROOT output := File (Parquet t)]> (fs st) /\
     new_events st st' =
       [EvPrint (Frame.head t); EvWrite (consolidate_dst ROOT output) (Parquet t)]) \/
  (exists e, r = Raise e /\ fs st' = fs st /\
             forall p c, ~ In (EvWrite p c) (new_events st st')).
Proof.
  unfold consolidate, consolidate_dst, new_events.
  unfold bind at 1. unfold read.
  destruct (FS.rglob _ _ (fs st)) as [|f files] eqn:Ef.
  - unfold raise. intros H. simplify_eq. right. eexists. split; [reflexivity|].
    split; [reflexivity|]. rewrite drop_all. intros p c [].
  - unfold bind at 1.
    destruct (starmap _read_json (f :: files) st) as [[data|e] s1] eqn:Er;
      apply read_all_state in Er as ->.
    + unfold bind, lift, log, write_file, change. cbn [fs trace].
      destruct (Frame.DataFrame data) as [t|e] eqn:Et.
      * destruct (FS.put _ (Parquet t) (fs st)) as [m|e] eqn:Ep; intros H; simplify_eq.
        -- left. split; [reflexivity|]. exists t. cbn [fs trace].
           apply put_result in Ep as ->. split; [reflexivity|].
           now rewrite <- app_assoc, drop_app_length.
        -- right. eexists. split; [reflexivity|]. split; [reflexivity|].
           cbn [trace]. rewrite drop_app_length. absent.
      * intros H. simplify_eq. right. eexists. split; [reflexivity|].
        split; [reflexivity|]. rewrite drop_all. intros p c [].
    + intros H. simplify_eq. right. eexists. split; [reflexivity|].
      split; [reflexivity|]. rewrite drop_all. intros p c [].
Qed.

Lemma consolidate_all_or_nothing_witness :
  exists r st',
    (r = Ok tt /\
     exists t,
       fs st' = <[consolidate_dst Fixture.ROOT "table" := File (Parquet t)]>
                  (fs Fixture.extracted) /\
       new_events Fixture.extracted st' =
         [EvPrint (Frame.head t);
          EvWrite (consolidate_dst Fixture.ROOT "table") (Parquet t)]) \/
    (exists e, r = Raise e /\ fs st' = fs Fixture.extracted /\
               forall p c, ~ In (EvWrite p c) (new_events Fixture.extracted st')).
Proof.
  exists (Ok tt), (snd (consolidate Fixture.ROOT "motif" "table" Fixture.extracted)).
  apply (consolidate_all_or_nothing Fixture.ROOT "motif" "table" Fixture.extracted).
  reflexivity.
Defined.

(** X11. One [metadata.json] that cannot be read as JSON text (a
    folder of that name, or a file that holds something else) stops
    [consolidate]: it raises and nothing is written or logged. *)
Theorem consolidate_stops_at_unreadable_record
    (ROOT : list string) (input output : string) (st : state) (f : list string) :
  In f (FS.rglob (String.eqb "metadata.json") (consolidate_src ROOT input) (fs st)) ->
  (forall j, FS.get f (fs st) <> Ok (Text j)) ->
  exists e, consolidate ROOT input output st = (Raise e, st).
Proof.
  intros Hin Hbad. unfold consolidate. unfold bind at 1. unfold read.
  unfold consolidate_src in Hin.
  destruct (FS.rglob _ _ (fs st)) as [|g files] eqn:Ef; [destruct Hin|].
  destruct (read_all_unreadable (g :: files) st f Hin Hbad) as (e & He).
  unfold bind at 1. rewrite He. eauto.
Qed.

Lemma consolidate_stops_at_unreadable_record_witness :
  exists e, consolidate Fixture.ROOT "motif" "table" Faulty.broken =
            (Raise e, Faulty.broken).
Proof.
  apply (consolidate_stops_at_unreadable_record Fixture.ROOT "motif" "table"
           Faulty.broken (Fixture.out ++ ["XC3"; "metadata.json"])).
  - vm_compute. auto.
  - intros j. vm_compute. discriminate.
Defined.

(** ** The columns of the table *)

Section Columns.

Lemma get_key_is_Some (d : list (string * json)) (k : string) :
  k ∈ Dict.keys d -> is_Some (Dict.get k d).
Proof.
  unfold Dict.get, Dict.keys. induction d as [|[k' v] d IH]; intros H; [inversion H|].
  cbn [find fst]. destruct (String.eqb k' k) eqn:E; [cbn; eauto|].
  apply IH. cbn [map fst] in H. inversion H; subst; [|assumption].
  rewrite String.eqb_refl in E. discriminate.
Qed.

Lemma DataFrame_row_length (ds : list (list (string * json))) t :
  Frame.DataFrame (map JObj ds) = Ok t ->
  Forall (fun row => length row = length (columns t)) (rows t).
Proof.
  unfold Frame.DataFrame. rewrite records_objects. intros [= <-].
  cbn [rows columns]. apply Forall_map, Forall_forall. intros i _.
  cbn beta. now rewrite !length_map.
Qed.

End Columns.

(** X12. When every [metadata.json] found holds a record as [write]
    leaves it, the table [consolidate] stores has exactly the nine
    columns of the record, in its order, and nine cells in every row. A
    cell is empty, missing or [null], exactly when its record holds
    [null] under that key: no other value is lost. *)
Theorem consolidate_columns_are_metadata_keys
    (ROOT : list string) (input output : string) (st : state)
    (ds : list (list (string * json))) :
  let files :=
    FS.rglob (String.eqb "metadata.json") (consolidate_src ROOT input) (fs st) in
  let dst := consolidate_dst ROOT output in
  files <> [] ->
  Forall2 (fun f d => FS.get f (fs st) = Ok (Text (JObj d))) files ds ->
  Forall written_record ds ->
  FS.is_dir (fs st) (removelast dst) = true ->
  FS.is_dir (fs st) dst = false ->
  exists t st',
    consolidate ROOT input output st = (Ok tt, st') /\
    FS.get dst (fs st') = Ok (Parquet t) /\
    columns t = metadata_keys /\
    Forall (fun row => length row = 9%nat) (rows t) /\
    forall i d k, ds !! i = Some d -> k ∈ metadata_keys ->
      (Frame.field t i k = None \/ Frame.field t i k = Some JNull <->
       Dict.get k d = Some JNull).
Proof.
  intros files dst Hne Hread Hall Hparent Hdst.
  destruct (consolidate_records ROOT st input output ds Hne Hread Hparent Hdst)
    as (t & Ht & Hrun).
  destruct (DataFrame_total ds) as (t' & Ht' & _ & Hcols).
  assert (t' = t) as -> by congruence.
  assert (ds <> []) as Hds.
  { intros ->. apply Forall2_length in Hread. destruct files; [congruence|discriminate]. }
  rewrite (written_columns ds Hds Hall) in Hcols.
  exists t. eexists. split; [exact Hrun|]. cbn [fs].
  split; [now apply get_inserted|].
  split; [exact Hcols|].
  split.
  { pose proof (DataFrame_row_length ds t Ht) as H. rewrite Hcols in H. exact H. }
  intros i d k Hi Hk.
  rewrite (written_field ds t i d k Hall Ht Hi).
  assert (written_record d) as Hd.
  { rewrite Forall_forall in Hall. apply Hall. eapply list_elem_of_lookup_2; eauto. }
  destruct (get_key_is_Some d k) as [v Hv].
  { now rewrite (written_keys d Hd). }
  rewrite Hv. destruct (mixes_int_and_null k ds).
  - destruct v; cbn; split; try (intros [?|?]; congruence); try congruence; auto.
  - split; [intros [?|?]; congruence|auto].
Qed.

Lemma consolidate_columns_are_metadata_keys_witness :
  exists t st',
    consolidate Fixture.ROOT "motif" "motif-consolidated" Fixture.extracted =
      (Ok tt, st') /\
    FS.get (consolidate_dst Fixture.ROOT "motif-consolidated") (fs st') =
      Ok (Parquet t) /\
    columns t = metadata_keys /\
    Forall (fun row => length row = 9%nat) (rows t) /\
    forall i d k, Fixture.found !! i = Some d -> k ∈ metadata_keys ->
      (Frame.field t i k = None \/ Frame.field t i k = Some JNull <->
       Dict.get k d = Some JNull).
Proof.
  apply (consolidate_columns_are_metadata_keys Fixture.ROOT "motif" "motif-consolidated"
           Fixture.extracted Fixture.found).
  - vm_compute. discriminate.
  - vm_compute. repeat constructor.
  - assert (Fixture.found =
      [ [("source_name", JStr "train_audio/afrsil1/XC2.ogg");
         ("cens_sample_rate", JInt 10); ("matrix_profile_window", JInt 10);
         ("sample_rate", JInt 10); ("duration_cens", JInt 52);
         ("duration_samples", JInt 51); ("duration_seconds", JFloat (510 # 100));
         ("motif_0", JInt 2); ("motif_1", JInt 12)];
        [("source_name", JStr "train_audio/afrsil1/XC1.ogg");
         ("cens_sample_rate", JInt 10); ("matrix_profile_window", JInt 10);
         ("sample_rate", JInt 10); ("duration_cens", JInt 50);
         ("duration_samples", JInt 49); ("duration_seconds", JFloat (490 # 100));
         ("motif_0", JNull); ("motif_1", JNull)] ]) as -> by (vm_compute; reflexivity).
    constructor; [|constructor; [|constructor]].
    + do 9 eexists. split; [reflexivity|]. unfold int64, motif_value.
      repeat split; try lia; right; eexists; (split; [reflexivity|lia]).
    + do 9 eexists. split; [reflexivity|]. unfold int64, motif_value.
      repeat split; try lia; left; reflexivity.
  - vm_compute. reflexivity.
  - vm_compute. reflexivity.
Defined.

(** ** From [write] to [consolidate] *)

Section Found.

Implicit Types (m : gmap (list string) node) (p q src : list string).



Lemma mkdir_all_above m m' p (n : nat) :
  FS.mkdir p m = Ok m' -> FS.is_dir m' (take n p) = true.
Proof.
  intros H. destruct (decide (take n p = [])) as [->|Hne]; [reflexivity|].
  eapply mkdirs_makes_dirs; [exact H|].
  unfold Path.ancestors_and_self. apply in_map_iff.
  destruct (decide (n <= length p)%nat).
  - exists n. split; [reflexivity|]. apply in_seq.
    destruct n; [now rewrite take_0 in Hne|]. lia.
  - exists (length p). split; [now rewrite !take_ge by lia|]. apply in_seq.
    destruct p; [now rewrite take_nil in Hne|]. simpl. lia.
Qed.


Lemma take_above_ne p (n : nat) (x : string) : take n p <> p ++ [x].
Proof.
  intros H. apply (f_equal (@length _)) in H.
  rewrite length_take, length_app in H. simpl in H. lia.
Qed.

End Found.



(** ** The source name in the record *)

Section SourceName.

Lemma split_on_component (c rest : string) :
  Str.occurs "/" c = false ->
  Path.split_on "/" (c +:+ "/" +:+ rest) = c :: Path.split_on "/" rest.
Proof.
  induction c as [|d c IH]; intros H.
  - reflexivity.
  - rewrite occurs_unfold, prefix_cons, prefix_empty in H.
    apply orb_false_elim in H as [Hd Hc].
    destruct (ascii_dec "/" d) as [|Hne]; [discriminate|].
    rewrite append_cons. cbn [Path.split_on].
    destruct (Ascii.eqb d "/") eqn:E; [apply Ascii.eqb_eq in E; congruence|].
    now rewrite (IH Hc).
Qed.

Lemma split_on_join (l : list string) :
  l <> [] -> Forall (fun c => Str.occurs "/" c = false) l ->
  Path.split_on "/" (Str.join "/" l) = l.
Proof.
  induction l as [|c l IH]; intros Hne Hall; [congruence|].
  apply Forall_cons in Hall as [Hc Hall].
  destruct l as [|c' l].
  - cbn [Str.join]. now apply split_on_plain.
  - change (Str.join "/" (c :: c' :: l)) with (c +:+ "/" +:+ Str.join "/" (c' :: l)).
    rewrite split_on_component by exact Hc. f_equal. now apply IH.
Qed.

End SourceName.

(** X15. The [source_name] of a record is made of the last three parts
    of the input path (of all its parts, when it has fewer), joined by
    [/]; when no part holds a [/] itself, cutting the name at [/] gives
    those parts back. *)
Theorem source_name_is_last_three_parts
    (C : collaborators) (input_path output_path : list string)
    (cens_sr mp_window : Z) (st st' : state) (r : result unit)
    (md : list (string * json)) :
  write C input_path output_path cens_sr mp_window st = (r, st') ->
  In (EvWrite (recording_dir input_path output_path // "metadata.json")
        (Text (JObj md)))
     (new_events st st') ->
  exists s,
    Dict.get "source_name" md = Some (JStr s) /\
    s = Str.join "/" (Path.last_parts 3 input_path) /\
    (input_path <> [] ->
     Forall (fun c => Str.occurs "/" c = false) input_path ->
     Path.split_on "/" s = Path.last_parts 3 input_path).
Proof.
  intros Hrun Hin. rewrite div_metadata in Hin.
  destruct (write_trace _ _ _ _ _ _ _ _ Hrun) as (evs & Hevs & Htext).
  rewrite (new_events_app _ _ _ Hevs) in Hin.
  destruct (Htext _ _ Hin) as (_ & clip & data & sr & hop & cens & m & _ & _
                               & _ & _ & Hmd & _).
  injection Hmd as ->. eexists. split; [now destruct m|]. split; [reflexivity|].
  intros Hne Hall. apply split_on_join.
  - unfold Path.last_parts. intros H. apply (f_equal (@length _)) in H.
    rewrite length_drop in H. destruct input_path; [congruence|]. simpl in H. lia.
  - unfold Path.last_parts. apply Forall_drop. exact Hall.
Qed.

Lemma source_name_is_last_three_parts_witness :
  exists s,
    Dict.get "source_name"
      (metadata_with Fixture.short_ogg 10 10 10 (Array2 12 50 [])
         (repeat (0 # 1)%Q 49) (49 # 10)%Q None) = Some (JStr s) /\
    s = Str.join "/" (Path.last_parts 3 Fixture.short_ogg) /\
    (Fixture.short_ogg <> [] ->
     Forall (fun c => Str.occurs "/" c = false) Fixture.short_ogg ->
     Path.split_on "/" s = Path.last_parts 3 Fixture.short_ogg).
Proof.
  eapply (source_name_is_last_three_parts Fixture.C Fixture.short_ogg Fixture.out
            10 10 Fixture.start
            (snd (write Fixture.C Fixture.short_ogg Fixture.out 10 10 Fixture.start))
            (Ok tt)).
  - reflexivity.
  - vm_compute. right. right. right. left. reflexivity.
Defined.

Example source_name_of_clip :
  Str.join "/" (Path.last_parts 3 Fixture.short_ogg) = "train_audio/afrsil1/XC1.ogg".
Proof. reflexivity. Qed.

(** ** The folders [write] makes *)

(** X16. [write] needs no folder to be there beforehand: once it has
    made the folder of the recording, that folder and every folder
    above it are on disk as directories, and they still are when the
    run ends, however it ends. *)
Theorem write_makes_the_folders
    (C : collaborators) (input_path output_path : list string)
    (cens_sr mp_window : Z) (st st' : state) (r : result unit) (n : nat) :
  write C input_path output_path cens_sr mp_window st = (r, st') ->
  In (EvMkdir (recording_dir input_path output_path)) (new_events st st') ->
  FS.is_dir (fs st') (take n (recording_dir input_path output_path)) = true.
Proof.
  unfold write, load, read_file, mkdir, write_file, change, lift, log, read,
    raise, ret, bind, getitem, new_events.
  rewrite !div_metadata, !div_mp, !div_pi. fold (recording_name input_path).
  fold (recording_dir input_path output_path).
  cbn [fs trace]. intros Hrun.
  repeat (let E := fresh "E" in case_match eqn:E; cbn [fs trace] in *);
    simplify_eq; cbn [fs trace];
    rewrite <- ?app_assoc; rewrite ?drop_app_length, ?drop_all;
    cbn [app In]; intros Hin; try (intuition discriminate);
    repeat match goal with
           | H : FS.put _ _ _ = Ok _ |- _ =>
               apply put_result in H; subst; cbn [fs trace] in *
           end;
    cbn [fs trace] in *;
    rewrite ?is_dir_insert_ne by apply take_above_ne;
    eapply mkdir_all_above; eassumption.
Qed.

Lemma write_makes_the_folders_witness :
  FS.is_dir
    (fs (snd (write Fixture.C Fixture.long_ogg Fixture.out 10 100 Fixture.start)))
    (take 2 (recording_dir Fixture.long_ogg Fixture.out)) = true.
Proof.
  apply (write_makes_the_folders Fixture.C Fixture.long_ogg Fixture.out 10 100
           Fixture.start
           (snd (write Fixture.C Fixture.long_ogg Fixture.out 10 100 Fixture.start))
           (Raise (ValueError "Time series is too short relative to desired window size"))).
  - reflexivity.
  - vm_compute. right. right. left. reflexivity.
Defined.
